(** * Tenant connection broker: catalog resolver, process-wide cache,
      v1 and v2 tenant pools (tenant_con.go, tenant_con_v2.go, cache.go,
      catalog_con.go).

    The Go code is embedded as functions in a small state monad.  The
    state is the process: the global [Mutex], the [Connections] cache,
    the heap of [TenantConnectionV2] objects and the history of calls
    that leave the package (cache, catalog store, database/sql, logging).
    Answers of the outside world (catalog rows, ping and statement
    results) come from an environment that may depend on the history. *)

From Stdlib Require Import ZArith Bool List Lia.
From stdpp Require Import base option gmap strings.

Local Open Scope Z_scope.

(** ** Durations (time.Duration is an int64 count of nanoseconds) *)

Definition Duration := Z.
Definition Second : Duration := 1000000000.
Definition Minute : Duration := 60 * Second.
Definition Hour : Duration := 60 * Minute.

(** ** Errors

    [errors_New] is a package-level sentinel or an error made by the
    driver; [fmt_Errorf] is [fmt.Errorf] without [%w]; [fmt_Errorf_w] is
    [fmt.Errorf("...: %w", err)], which keeps [err] reachable for
    [errors.Is]. *)

Inductive error : Type :=
| errors_New (msg : string)
| fmt_Errorf (msg : string)
| fmt_Errorf_w (msg : string) (err : error).

Fixpoint error_eqb (a b : error) : bool :=
  match a, b with
  | errors_New m, errors_New n => String.eqb m n
  | fmt_Errorf m, fmt_Errorf n => String.eqb m n
  | fmt_Errorf_w m e, fmt_Errorf_w n f => String.eqb m n && error_eqb e f
  | _, _ => false
  end.

Fixpoint errors_Is (err target : error) : bool :=
  error_eqb err target ||
  match err with
  | fmt_Errorf_w _ inner => errors_Is inner target
  | _ => false
  end.

Definition ErrRecordNotFound : error := errors_New "record not found".
Definition sql_ErrNoRows : error := errors_New "sql: no rows in result set".

Inductive result (A : Type) : Type :=
| Ok (a : A)
| Err (e : error).
Arguments Ok {A} a.
Arguments Err {A} e.

(** ** Data model *)

Record Catalog := {
  Driver : string;
  UserName : string;
  Password : string;
  Server : string;
  DatabaseName : string;
  SchemaName : string }.

(** A [*sql.DB] that is not nil, and a [*TenantConnectionV2] that is not
    nil; [option] adds the nil pointer. *)
Definition sqlDB := nat.
Definition ptr := nat.

Inductive Logger : Type :=
| DefaultTenantLogger
| CustomLogger (id : nat).

Definition defaultLogger : option Logger := Some DefaultTenantLogger.

Record TenantConnectOptions := {
  Tenant : string;
  MaxOpenConns : Z;
  MaxIdleConns : Z;
  ConnMaxIdle : Duration;
  ConnMaxLifetime : Duration;
  ForceUTC : bool;
  QueryLogger : option Logger;
  CacheEnabled : bool;
  CacheTTL : Duration }.

Record TenantConnectionV2 := {
  DB : option sqlDB;
  SearchPath : string;
  Options : TenantConnectOptions;
  createdAt : Z;
  closed : bool }.

Module V1.
Record Connection := {
  DB : option sqlDB;
  SearchPath : string }.
End V1.

(** What the cache holds behind its [interface{}] values. *)
Inductive cached : Type :=
| CachedConnection (c : V1.Connection)
| CachedTenantV2 (p : ptr).

(** ** Calls that leave the package *)

Inductive Ctx : Type := CallerCtx | SetupCtx | BackgroundCtx.

Inductive Event : Type :=
| EvMutexLock
| EvMutexUnlock
| EvCacheGet (key : string)
| EvCacheSetWithTTL (key : string) (cost : Z) (ttl : Duration)
| EvCacheDel (key : string)
| EvCatalogQuery (tenant : string)
| EvSqlOpen (dsn : string) (db : sqlDB)
| EvSqlOpenFailed (dsn : string)
| EvSetMaxOpenConns (db : sqlDB) (n : Z)
| EvSetMaxIdleConns (db : sqlDB) (n : Z)
| EvSetConnMaxIdleTime (db : sqlDB) (d : Duration)
| EvSetConnMaxLifetime (db : sqlDB) (d : Duration)
| EvPing (db : sqlDB) (c : Ctx)
| EvExec (db : sqlDB) (c : Ctx) (stmt : string)
| EvQuery (db : sqlDB) (stmt : string)
| EvQueryRow (db : sqlDB) (stmt : string)
| EvDBClose (db : sqlDB)
| EvLogger (l : Logger) (query : string) (args : list string)
| EvPrint (line : string).

(** database/sql's [Row]: [QueryRowContext] fills exactly one of the two
    fields; [Scan] returns [err] when it is set and otherwise reads
    through [rows]; [Err] returns the field. *)
Record Row := {
  row_err : option error;
  row_rows : option nat }.

Definition zeroRow : Row := {| row_err := None; row_rows := None |}.

(** ** The process state *)

Record World := {
  mutexHeld : bool;
  Connections : gmap string cached;
  heap : gmap ptr TenantConnectionV2;
  nextDB : sqlDB;
  trace : list Event }.

(** The history in the order the calls happened ([trace] is newest
    first). *)
Definition history (w : World) : list Event := rev (trace w).

(** ** The outside world.  Each answer may depend on the calls made so
    far, so one handle can answer a first ping and fail a later one.
    [GetCatalogConnection] is taken to have run: [dbCatalog] is set. *)

Record Env := {
  catalogRows : list Catalog;
  catalogFailure : list Event -> string -> option error;
  openFailure : list Event -> string -> option error;
  pingResult : list Event -> sqlDB -> Ctx -> option error;
  execResult : list Event -> sqlDB -> string -> option error;
  queryResult : list Event -> sqlDB -> string -> result nat;
  queryRowResult : list Event -> sqlDB -> string -> Row;
  scanResult : list Event -> nat -> option error;
  closeResult : list Event -> sqlDB -> option error;
  clock : list Event -> Z }.

(** ** Outcomes of a call and the monad of the embedding *)

Inductive outcome (A : Type) : Type :=
| Returns (a : A)
| Panics (msg : string)
| Fatal (msg : string)
| Blocks.
Arguments Returns {A} a.
Arguments Panics {A} msg.
Arguments Fatal {A} msg.
Arguments Blocks {A}.

Definition Go (A : Type) : Type := World -> outcome A * World.

Definition Go_ret {A} (a : A) : Go A := fun w => (Returns a, w).

Definition Go_bind {A B} (f : A -> Go B) (m : Go A) : Go B :=
  fun w =>
    match m w with
    | (Returns a, w') => f a w'
    | (Panics msg, w') => (Panics msg, w')
    | (Fatal msg, w') => (Fatal msg, w')
    | (Blocks, w') => (Blocks, w')
    end.

#[global] Instance Go_mret : MRet Go := @Go_ret.
#[global] Instance Go_mbind : MBind Go := @Go_bind.

Definition isNil {A} (o : option A) : bool :=
  match o with
  | None => true
  | Some _ => false
  end.

Definition panic {A} (msg : string) : Go A := fun w => (Panics msg, w).

Definition nil_dereference : string :=
  "runtime error: invalid memory address or nil pointer dereference".

(** [defer d] around [body]: [d] runs when [body] returns and when it
    panics, not after a fatal error or while the goroutine is blocked. *)
Definition with_defer {A} (d : Go unit) (body : Go A) : Go A :=
  fun w =>
    match body w with
    | (Returns a, w') =>
        match d w' with
        | (Returns _, w'') => (Returns a, w'')
        | (Panics m, w'') => (Panics m, w'')
        | (Fatal m, w'') => (Fatal m, w'')
        | (Blocks, w'') => (Blocks, w'')
        end
    | (Panics msg, w') =>
        match d w' with
        | (Returns _, w'') => (Panics msg, w'')
        | (Panics m, w'') => (Panics m, w'')
        | (Fatal m, w'') => (Fatal m, w'')
        | (Blocks, w'') => (Blocks, w'')
        end
    | other => other
    end.

Definition set_mutexHeld (b : bool) (w : World) : World :=
  {| mutexHeld := b; Connections := Connections w; heap := heap w;
     nextDB := nextDB w; trace := trace w |}.

Definition set_Connections (c : gmap string cached) (w : World) : World :=
  {| mutexHeld := mutexHeld w; Connections := c; heap := heap w;
     nextDB := nextDB w; trace := trace w |}.

Definition set_heap (h : gmap ptr TenantConnectionV2) (w : World) : World :=
  {| mutexHeld := mutexHeld w; Connections := Connections w; heap := h;
     nextDB := nextDB w; trace := trace w |}.

Definition set_nextDB (n : sqlDB) (w : World) : World :=
  {| mutexHeld := mutexHeld w; Connections := Connections w; heap := heap w;
     nextDB := n; trace := trace w |}.

Definition record (e : Event) (w : World) : World :=
  {| mutexHeld := mutexHeld w; Connections := Connections w; heap := heap w;
     nextDB := nextDB w; trace := e :: trace w |}.

Definition emit (e : Event) : Go unit := fun w => (Returns tt, record e w).

(** ** sync.Mutex, the global [Mutex] of cache.go

    One goroutine runs: [Lock] on a held mutex blocks it for good, and
    [Unlock] on a mutex that is not held is the runtime's fatal error. *)

Definition Mutex_Lock : Go unit :=
  fun w =>
    if mutexHeld w then (Blocks, w)
    else (Returns tt, record EvMutexLock (set_mutexHeld true w)).

Definition Mutex_Unlock : Go unit :=
  fun w =>
    if mutexHeld w then (Returns tt, record EvMutexUnlock (set_mutexHeld false w))
    else (Fatal "fatal error: sync: unlock of unlocked mutex", w).

(** ** The ristretto cache [Connections] as the map of its live entries

    [init] of cache.go creates the cache or panics, so [Connections] is
    never nil afterwards; entries that passed their TTL are gone from
    the map. *)

Definition Connections_Get (key : string) : Go (option cached) :=
  fun w => (Returns (Connections w !! key), record (EvCacheGet key) w).

Definition Connections_SetWithTTL (key : string) (v : cached) (cost : Z)
    (ttl : Duration) : Go unit :=
  fun w => (Returns tt,
            record (EvCacheSetWithTTL key cost ttl)
                   (set_Connections (<[key := v]> (Connections w)) w)).

Definition Connections_Del (key : string) : Go unit :=
  fun w => (Returns tt,
            record (EvCacheDel key) (set_Connections (delete key (Connections w)) w)).

Definition prefixConnection : string := "con-".

Definition cacheKeyV1 (tenant : string) : string := prefixConnection +:+ tenant.
Definition cacheKeyV2 (tenant : string) : string :=
  (prefixConnection +:+ "v2-") +:+ tenant.

(** Type assertions on a cached value. *)
Definition assert_TenantConnectionV2 (conn : cached) : Go ptr :=
  match conn with
  | CachedTenantV2 p => mret p
  | CachedConnection _ =>
      panic "interface conversion: interface {} is connection.Connection, not *connection.TenantConnectionV2"
  end.

Definition assert_Connection (conn : cached) : Go V1.Connection :=
  match conn with
  | CachedConnection c => mret c
  | CachedTenantV2 _ =>
      panic "interface conversion: interface {} is *connection.TenantConnectionV2, not connection.Connection"
  end.

(** ** Heap of pool objects *)

Definition load (p : ptr) : Go TenantConnectionV2 :=
  fun w =>
    match heap w !! p with
    | Some obj => (Returns obj, w)
    | None => (Panics nil_dereference, w)
    end.

Definition alloc (obj : TenantConnectionV2) : Go ptr :=
  fun w =>
    let p := fresh (dom (heap w)) in
    (Returns p, set_heap (<[p := obj]> (heap w)) w).

Definition set_closed (b : bool) (obj : TenantConnectionV2) : TenantConnectionV2 :=
  {| DB := DB obj; SearchPath := SearchPath obj; Options := Options obj;
     createdAt := createdAt obj; closed := b |}.

Definition mark_closed (p : ptr) : Go unit :=
  fun w => (Returns tt, set_heap (alter (set_closed true) p (heap w)) w).

(** ** database/sql and the catalog store, answered by the environment *)

Section Broker.

Variable env : Env.

Definition sql_Open (dsn : string) : Go (result sqlDB) :=
  fun w =>
    match openFailure env (trace w) dsn with
    | Some e => (Returns (Err e), record (EvSqlOpenFailed dsn) w)
    | None =>
        let db := nextDB w in
        (Returns (Ok db), record (EvSqlOpen dsn db) (set_nextDB (S db) w))
    end.

Definition PingContext (c : Ctx) (db : option sqlDB) : Go (option error) :=
  match db with
  | None => panic nil_dereference
  | Some h => fun w => (Returns (pingResult env (trace w) h c), record (EvPing h c) w)
  end.

Definition ExecContext (c : Ctx) (db : sqlDB) (stmt : string) : Go (option error) :=
  fun w => (Returns (execResult env (trace w) db stmt), record (EvExec db c stmt) w).

Definition QueryContext (db : sqlDB) (stmt : string) : Go (result nat) :=
  fun w => (Returns (queryResult env (trace w) db stmt), record (EvQuery db stmt) w).

Definition QueryRowContext (db : sqlDB) (stmt : string) : Go Row :=
  fun w => (Returns (queryRowResult env (trace w) db stmt), record (EvQueryRow db stmt) w).

Definition DB_Close (db : option sqlDB) : Go (option error) :=
  match db with
  | None => panic nil_dereference
  | Some h => fun w => (Returns (closeResult env (trace w) h), record (EvDBClose h) w)
  end.

Definition time_Now : Go Z := fun w => (Returns (clock env (trace w)), w).

(** [Row.Scan] and [Row.Err] of database/sql. *)
Definition Row_Scan (r : Row) : Go (option error) :=
  match row_err r with
  | Some e => mret (Some e)
  | None =>
      match row_rows r with
      | None => panic nil_dereference
      | Some rows => fun w => (Returns (scanResult env (trace w) rows), w)
      end
  end.

Definition Row_Err (r : Row) : option error := row_err r.

(** ** catalog_con.go *)

(** The answer of [QueryRowContext(ctx, query, tenant).Scan(...)]:
    the first row whose schema_name is the tenant key (LIMIT 1),
    [sql.ErrNoRows] when no row matches, the store's error when the
    query itself fails. *)
Definition catalog_scan (tenant : string) : Go (result Catalog) :=
  fun w =>
    let w' := record (EvCatalogQuery tenant) w in
    match catalogFailure env (trace w) tenant with
    | Some e => (Returns (Err e), w')
    | None =>
        match List.find (fun row => String.eqb (SchemaName row) tenant) (catalogRows env) with
        | Some row => (Returns (Ok row), w')
        | None => (Returns (Err sql_ErrNoRows), w')
        end
    end.

Definition GetTenant (tenant : string) : Go (result Catalog) :=
  r ← catalog_scan tenant;
  match r with
  | Err err =>
      if errors_Is err sql_ErrNoRows then mret (Err ErrRecordNotFound)
      else mret (Err err)
  | Ok catalog => mret (Ok catalog)
  end.

(** ** tenant_con_v2.go *)

Definition set_CacheTTL (d : Duration) (o : TenantConnectOptions) :=
  {| Tenant := Tenant o; MaxOpenConns := MaxOpenConns o; MaxIdleConns := MaxIdleConns o;
     ConnMaxIdle := ConnMaxIdle o; ConnMaxLifetime := ConnMaxLifetime o;
     ForceUTC := ForceUTC o; QueryLogger := QueryLogger o;
     CacheEnabled := CacheEnabled o; CacheTTL := d |}.

Definition set_ConnMaxLifetime (d : Duration) (o : TenantConnectOptions) :=
  {| Tenant := Tenant o; MaxOpenConns := MaxOpenConns o; MaxIdleConns := MaxIdleConns o;
     ConnMaxIdle := ConnMaxIdle o; ConnMaxLifetime := d;
     ForceUTC := ForceUTC o; QueryLogger := QueryLogger o;
     CacheEnabled := CacheEnabled o; CacheTTL := CacheTTL o |}.

Definition set_ConnMaxIdle (d : Duration) (o : TenantConnectOptions) :=
  {| Tenant := Tenant o; MaxOpenConns := MaxOpenConns o; MaxIdleConns := MaxIdleConns o;
     ConnMaxIdle := d; ConnMaxLifetime := ConnMaxLifetime o;
     ForceUTC := ForceUTC o; QueryLogger := QueryLogger o;
     CacheEnabled := CacheEnabled o; CacheTTL := CacheTTL o |}.

Definition set_MaxOpenConns (n : Z) (o : TenantConnectOptions) :=
  {| Tenant := Tenant o; MaxOpenConns := n; MaxIdleConns := MaxIdleConns o;
     ConnMaxIdle := ConnMaxIdle o; ConnMaxLifetime := ConnMaxLifetime o;
     ForceUTC := ForceUTC o; QueryLogger := QueryLogger o;
     CacheEnabled := CacheEnabled o; CacheTTL := CacheTTL o |}.

Definition set_MaxIdleConns (n : Z) (o : TenantConnectOptions) :=
  {| Tenant := Tenant o; MaxOpenConns := MaxOpenConns o; MaxIdleConns := n;
     ConnMaxIdle := ConnMaxIdle o; ConnMaxLifetime := ConnMaxLifetime o;
     ForceUTC := ForceUTC o; QueryLogger := QueryLogger o;
     CacheEnabled := CacheEnabled o; CacheTTL := CacheTTL o |}.

Definition set_CacheEnabled (b : bool) (o : TenantConnectOptions) :=
  {| Tenant := Tenant o; MaxOpenConns := MaxOpenConns o; MaxIdleConns := MaxIdleConns o;
     ConnMaxIdle := ConnMaxIdle o; ConnMaxLifetime := ConnMaxLifetime o;
     ForceUTC := ForceUTC o; QueryLogger := QueryLogger o;
     CacheEnabled := b; CacheTTL := CacheTTL o |}.

(** Lines 56-76 of GetTenantConnectionV2: the defaults, then the
    cache-enabled flag. *)
Definition resolveDefaults (opts : TenantConnectOptions) : TenantConnectOptions :=
  let opts := if CacheTTL opts =? 0 then set_CacheTTL (55 * Minute) opts else opts in
  let opts := if ConnMaxLifetime opts =? 0 then set_ConnMaxLifetime (1 * Hour) opts else opts in
  let opts := if ConnMaxIdle opts =? 0 then set_ConnMaxIdle (1 * Hour) opts else opts in
  let opts := if MaxOpenConns opts =? 0 then set_MaxOpenConns 25 opts else opts in
  let opts := if MaxIdleConns opts =? 0 then set_MaxIdleConns 25 opts else opts in
  if CacheEnabled opts || (negb (CacheEnabled opts) && (CacheTTL opts >? 0))
  then set_CacheEnabled true opts
  else opts.

Definition dsn_of (catalog : Catalog) : string :=
  Driver catalog +:+ "://" +:+ UserName catalog +:+ ":" +:+ Password catalog +:+
  "@" +:+ Server catalog +:+ "/" +:+ DatabaseName catalog +:+ "?sslmode=disable".

(** Lines 78-92: the cache lookup.  [Some tc] is the early return of the
    cached pool; [None] falls through to the catalog. *)
Definition lookupCached (opts : TenantConnectOptions) : Go (option ptr) :=
  if CacheEnabled opts then
    Mutex_Lock;;
    let cacheKey := cacheKeyV2 (Tenant opts) in
    found ← Connections_Get cacheKey;
    early ← match found with
            | Some conn =>
                Mutex_Unlock;;
                tenantConn ← assert_TenantConnectionV2 conn;
                obj ← load tenantConn;
                err ← PingContext CallerCtx (DB obj);
                match err with
                | None => mret (Some tenantConn)
                | Some _ => Connections_Del cacheKey;; mret None
                end
            | None => mret None
            end;
    match early with
    | Some tenantConn => mret (Some tenantConn)
    | None => Mutex_Unlock;; mret None
    end
  else mret None.

(** Lines 94-166: catalog, open, configure, validate, cache. *)
Definition buildPool (opts : TenantConnectOptions) : Go (result ptr) :=
  r ← GetTenant (Tenant opts);
  match r with
  | Err err => mret (Err (fmt_Errorf_w "failed to get tenant info" err))
  | Ok catalog =>
  let dsn := dsn_of catalog in
  o ← sql_Open dsn;
  match o with
  | Err err =>
      mret (Err (fmt_Errorf_w
        ("failed to open database connection for tenant " +:+ Tenant opts) err))
  | Ok db =>
  emit (EvSetMaxOpenConns db (MaxOpenConns opts));;
  emit (EvSetMaxIdleConns db (MaxIdleConns opts));;
  emit (EvSetConnMaxIdleTime db (ConnMaxIdle opts));;
  emit (EvSetConnMaxLifetime db (ConnMaxLifetime opts));;
  err ← PingContext SetupCtx (Some db);
  match err with
  | Some err =>
      DB_Close (Some db);;
      mret (Err (fmt_Errorf_w ("failed to ping database for tenant " +:+ Tenant opts) err))
  | None =>
  err ← ExecContext SetupCtx db ("SET search_path TO " +:+ Tenant opts);
  match err with
  | Some err =>
      DB_Close (Some db);;
      mret (Err (fmt_Errorf_w ("failed to set search_path for tenant " +:+ Tenant opts) err))
  | None =>
  tz ← (if ForceUTC opts then ExecContext SetupCtx db "SET TIMEZONE='UTC'" else mret None);
  match tz with
  | Some err =>
      DB_Close (Some db);;
      mret (Err (fmt_Errorf_w ("failed to set timezone for tenant " +:+ Tenant opts) err))
  | None =>
  now ← time_Now;
  tenantConn ← alloc {| DB := Some db; SearchPath := Tenant opts; Options := opts;
                        createdAt := now; closed := false |};
  err ← PingContext SetupCtx (Some db);
  match err with
  | Some err =>
      DB_Close (Some db);;
      mret (Err (fmt_Errorf_w
        ("final connection validation failed for tenant " +:+ Tenant opts) err))
  | None =>
  (if CacheEnabled opts then
     Mutex_Lock;;
     let cacheKey := cacheKeyV2 (Tenant opts) in
     Connections_SetWithTTL cacheKey (CachedTenantV2 tenantConn) 1 (CacheTTL opts);;
     Mutex_Unlock
   else mret tt);;
  emit (EvPrint ("TenantConnectionV2 created for tenant: " +:+ Tenant opts));;
  mret (Ok tenantConn)
  end end end end end end.

Definition GetTenantConnectionV2 (opts : TenantConnectOptions) : Go (result ptr) :=
  if String.eqb (Tenant opts) "" then mret (Err (fmt_Errorf "tenant name is required"))
  else
    let opts := resolveDefaults opts in
    hit ← lookupCached opts;
    match hit with
    | Some tenantConn => mret (Ok tenantConn)
    | None => buildPool opts
    end.

(** The pool's own [mu] is taken and released (by [defer]) inside each
    method and never held across a call into another method, so a
    single goroutine always finds it free; it is not part of the state.
    In [Close] the test [Connections != nil] is always true (see the
    cache above). *)

Definition Close (tc : option ptr) : Go (option error) :=
  match tc with
  | None => mret None
  | Some p =>
      obj ← load p;
      if closed obj || isNil (DB obj) then mret None
      else
        (if CacheEnabled (Options obj) then
           Mutex_Lock;;
           let cacheKey := cacheKeyV2 (Tenant (Options obj)) in
           Connections_Del cacheKey;;
           Mutex_Unlock
         else mret tt);;
        err ← DB_Close (DB obj);
        mark_closed p;;
        emit (EvPrint ("TenantConnectionV2 closed for tenant: " +:+ Tenant (Options obj)));;
        mret err
  end.

Definition IsHealthy (tc : option ptr) : Go bool :=
  match tc with
  | None => mret false
  | Some p =>
      obj ← load p;
      if closed obj || isNil (DB obj) then mret false
      else
        err ← PingContext CallerCtx (DB obj);
        mret (isNil err)
  end.

Definition GetAge (tc : option ptr) : Go Z :=
  match tc with
  | None => panic nil_dereference
  | Some p =>
      obj ← load p;
      now ← time_Now;
      mret (now - createdAt obj)
  end.

Definition GetDB (tc : option ptr) : Go (option sqlDB) :=
  match tc with
  | None => mret None
  | Some p =>
      obj ← load p;
      if closed obj then mret None else mret (DB obj)
  end.

(** After [GetDB] gave a handle the receiver is not nil. *)
Definition receiver (tc : option ptr) : Go TenantConnectionV2 :=
  match tc with
  | None => panic nil_dereference
  | Some p => load p
  end.

Definition call_logger (tc : TenantConnectionV2) (query : string) (args : list string) : Go unit :=
  let logger := QueryLogger (Options tc) in
  let logger := if isNil logger then defaultLogger else logger in
  match logger with
  | Some l => emit (EvLogger l query args)
  | None => mret tt
  end.

Definition ExecWithLog (tc : option ptr) (query : string) (args : list string)
  : Go (result unit) :=
  db ← GetDB tc;
  match db with
  | None => mret (Err (fmt_Errorf "connection is closed or invalid"))
  | Some db =>
      obj ← receiver tc;
      call_logger obj query args;;
      err ← ExecContext CallerCtx db query;
      emit (EvPrint ("[TenantExec][" +:+ SearchPath obj +:+ "]"));;
      mret (match err with Some e => Err e | None => Ok tt end)
  end.

Definition QueryWithLog (tc : option ptr) (query : string) (args : list string)
  : Go (result nat) :=
  db ← GetDB tc;
  match db with
  | None => mret (Err (fmt_Errorf "connection is closed or invalid"))
  | Some db =>
      obj ← receiver tc;
      call_logger obj query args;;
      rows ← QueryContext db query;
      emit (EvPrint ("[TenantQuery][" +:+ SearchPath obj +:+ "]"));;
      mret rows
  end.

Definition QueryRowWithLog (tc : option ptr) (query : string) (args : list string)
  : Go Row :=
  db ← GetDB tc;
  match db with
  | None => mret zeroRow
  | Some db =>
      obj ← receiver tc;
      call_logger obj query args;;
      QueryRowContext db query
  end.

(** ** tenant_con.go: the first generation *)

Definition GetTenantConnection (tenant : string) : Go (result V1.Connection) :=
  Mutex_Lock;;
  with_defer Mutex_Unlock (
    found ← Connections_Get (cacheKeyV1 tenant);
    match found with
    | Some conn => c ← assert_Connection conn; mret (Ok c)
    | None =>
    r ← GetTenant tenant;
    match r with
    | Err err => mret (Err err)
    | Ok catalog =>
    o ← sql_Open (dsn_of catalog);
    match o with
    | Err err => mret (Err err)
    | Ok dbCon =>
    emit (EvPrint ("Connection create for tenant " +:+ tenant));;
    err ← ExecContext BackgroundCtx dbCon ("SET search_path TO " +:+ tenant);
    match err with
    | Some err => mret (Err err)
    | None =>
    let connection := {| V1.DB := Some dbCon; V1.SearchPath := tenant |} in
    Connections_SetWithTTL (cacheKeyV1 tenant) (CachedConnection connection) 1 (1 * Hour);;
    emit (EvSetConnMaxLifetime dbCon (1 * Hour));;
    emit (EvSetConnMaxIdleTime dbCon (1 * Hour));;
    mret (Ok connection)
    end end end end).

(** The revision of tenant_con.go that takes [Mutex] and [Connections]
    from the shared cache package: it logs a cache hit and sets no
    connection lifetimes. *)
Definition GetTenantConnection_shared (tenant : string) : Go (result V1.Connection) :=
  Mutex_Lock;;
  with_defer Mutex_Unlock (
    found ← Connections_Get (cacheKeyV1 tenant);
    match found with
    | Some conn =>
        emit (EvPrint ("Found connection in cache for tenant " +:+ tenant));;
        c ← assert_Connection conn; mret (Ok c)
    | None =>
    r ← GetTenant tenant;
    match r with
    | Err err => mret (Err err)
    | Ok catalog =>
    o ← sql_Open (dsn_of catalog);
    match o with
    | Err err => mret (Err err)
    | Ok dbCon =>
    emit (EvPrint ("Connection create for tenant " +:+ tenant));;
    err ← ExecContext BackgroundCtx dbCon ("SET search_path TO " +:+ tenant);
    match err with
    | Some err => mret (Err err)
    | None =>
    let connection := {| V1.DB := Some dbCon; V1.SearchPath := tenant |} in
    Connections_SetWithTTL (cacheKeyV1 tenant) (CachedConnection connection) 1 (1 * Hour);;
    mret (Ok connection)
    end end end end).

End Broker.

(** ** Checks on histories *)

(** The global lock is taken only when free, released only when held,
    and the cache is written ([SetWithTTL], [Del]) only while it is
    held.  The history is read oldest first. *)
Fixpoint lock_discipline (held : bool) (h : list Event) : bool :=
  match h with
  | [] => true
  | EvMutexLock :: h' => negb held && lock_discipline true h'
  | EvMutexUnlock :: h' => held && lock_discipline false h'
  | EvCacheSetWithTTL _ _ _ :: h' => held && lock_discipline held h'
  | EvCacheDel _ :: h' => held && lock_discipline held h'
  | _ :: h' => lock_discipline held h'
  end.

Definition is_close_of (db : sqlDB) (e : Event) : bool :=
  match e with
  | EvDBClose h => Nat.eqb h db
  | _ => false
  end.

(** Handles opened in the history (oldest first) and not closed later. *)
Fixpoint leaked (h : list Event) : list sqlDB :=
  match h with
  | [] => []
  | EvSqlOpen _ db :: h' =>
      if existsb (is_close_of db) h' then leaked h' else db :: leaked h'
  | _ :: h' => leaked h'
  end.

(** ** Sample environments and states *)

Definition quietEnv (rows : list Catalog) : Env :=
  {| catalogRows := rows;
     catalogFailure := fun _ _ => None;
     openFailure := fun _ _ => None;
     pingResult := fun _ _ _ => None;
     execResult := fun _ _ _ => None;
     queryResult := fun _ _ _ => Ok 0%nat;
     queryRowResult := fun _ _ _ => {| row_err := None; row_rows := Some 0%nat |};
     scanResult := fun _ _ => None;
     closeResult := fun _ _ => None;
     clock := fun _ => 0 |}.

Definition bad_connection : error := errors_New "driver: bad connection".

(** The caller's pings fail (a dead pool); setup pings answer. *)
Definition staleEnv (rows : list Catalog) : Env :=
  {| catalogRows := rows;
     catalogFailure := fun _ _ => None;
     openFailure := fun _ _ => None;
     pingResult := fun _ _ c =>
       match c with CallerCtx => Some bad_connection | _ => None end;
     execResult := fun _ _ _ => None;
     queryResult := fun _ _ _ => Ok 0%nat;
     queryRowResult := fun _ _ _ => {| row_err := None; row_rows := Some 0%nat |};
     scanResult := fun _ _ => None;
     closeResult := fun _ _ => None;
     clock := fun _ => 0 |}.

(** Every statement fails (the search_path statement among them). *)
Definition execFailEnv (rows : list Catalog) : Env :=
  {| catalogRows := rows;
     catalogFailure := fun _ _ => None;
     openFailure := fun _ _ => None;
     pingResult := fun _ _ _ => None;
     execResult := fun _ _ _ => Some bad_connection;
     queryResult := fun _ _ _ => Err bad_connection;
     queryRowResult := fun _ _ _ => {| row_err := Some bad_connection; row_rows := None |};
     scanResult := fun _ _ => None;
     closeResult := fun _ _ => None;
     clock := fun _ => 0 |}.

Definition catalogRow (schema : string) : Catalog :=
  {| Driver := "postgres"; UserName := "u"; Password := "p"; Server := "h";
     DatabaseName := "d"; SchemaName := schema |}.

Definition onlyTenant (tenant : string) : TenantConnectOptions :=
  {| Tenant := tenant; MaxOpenConns := 0; MaxIdleConns := 0; ConnMaxIdle := 0;
     ConnMaxLifetime := 0; ForceUTC := false; QueryLogger := None;
     CacheEnabled := false; CacheTTL := 0 |}.

Definition emptyWorld : World :=
  {| mutexHeld := false; Connections := ∅; heap := ∅; nextDB := 0%nat; trace := [] |}.

Definition poolOf (tenant : string) (db : option sqlDB) (isClosed : bool) : TenantConnectionV2 :=
  {| DB := db; SearchPath := tenant; Options := resolveDefaults (onlyTenant tenant);
     createdAt := 0; closed := isClosed |}.

(** One v2 pool for [tenant] at address 0, cached under its v2 key. *)
Definition cachedWorld (tenant : string) (db : option sqlDB) (isClosed : bool) : World :=
  {| mutexHeld := false;
     Connections := {[ cacheKeyV2 tenant := CachedTenantV2 0%nat ]};
     heap := {[ 0%nat := poolOf tenant db isClosed ]};
     nextDB := 1%nat;
     trace := [] |}.

(** One pool at address 0 that is not in the cache. *)
Definition loneWorld (obj : TenantConnectionV2) : World :=
  {| mutexHeld := false; Connections := ∅; heap := {[ 0%nat := obj ]};
     nextDB := 1%nat; trace := [] |}.

(** The calls that configure a pool handle. *)
Definition is_pool_setting (e : Event) : bool :=
  match e with
  | EvSetMaxOpenConns _ _ | EvSetMaxIdleConns _ _
  | EvSetConnMaxIdleTime _ _ | EvSetConnMaxLifetime _ _ => true
  | _ => false
  end.

Definition customOptions : TenantConnectOptions :=
  {| Tenant := "x"; MaxOpenConns := 7; MaxIdleConns := 3; ConnMaxIdle := 2 * Minute;
     ConnMaxLifetime := 5 * Minute; ForceUTC := true; QueryLogger := Some (CustomLogger 1);
     CacheEnabled := true; CacheTTL := 1 * Minute |}.

(** The handle's close fails; Close still marks the pool closed. *)
Definition closeFailEnv : Env :=
  {| catalogRows := [];
     catalogFailure := fun _ _ => None;
     openFailure := fun _ _ => None;
     pingResult := fun _ _ _ => None;
     execResult := fun _ _ _ => None;
     queryResult := fun _ _ _ => Ok 0%nat;
     queryRowResult := fun _ _ _ => {| row_err := None; row_rows := Some 0%nat |};
     scanResult := fun _ _ => None;
     closeResult := fun _ _ => Some bad_connection;
     clock := fun _ => 0 |}.

Definition is_open (e : Event) : bool :=
  match e with
  | EvSqlOpen _ _ => true
  | _ => false
  end.

Definition is_close (e : Event) : bool :=
  match e with
  | EvDBClose _ => true
  | _ => false
  end.

(** Whether the global lock is held after a history that started with
    it [held]. *)
Fixpoint held_after (held : bool) (h : list Event) : bool :=
  match h with
  | [] => held
  | EvMutexLock :: h' => held_after true h'
  | EvMutexUnlock :: h' => held_after false h'
  | _ :: h' => held_after held h'
  end.

Definition not_fatal {A} (out : outcome A) : Prop :=
  match out with
  | Fatal _ => False
  | _ => True
  end.

(** From [w] to [w'] the calls added to the history keep the lock
    discipline and leave the lock free. *)
Definition disciplined (w w' : World) : Prop :=
  exists new, trace w' = new ++ trace w /\
    (lock_discipline false (rev new) = true /\
     held_after false (rev new) = false /\
     mutexHeld w' = false).

(** The closed flag of the pool at [p]. *)
Definition closed_flag (w : World) (p : ptr) : option bool := closed <$> (heap w !! p).

(** The catalog store answers the query for [tenant] and no row of the
    table has that schema name. *)
Definition no_catalog_row (env : Env) (tenant : string) : Prop :=
  (forall tr, catalogFailure env tr tenant = None) /\
  List.find (fun row => String.eqb (SchemaName row) tenant) (catalogRows env) = None.

(** ** tenant_con_v2.go: the factory adapter and its convenience variants *)

(** What [ctx.Value(TenantContextKey)] holds: nothing ([None]), a string,
    or a value of another type. *)
Inductive any_value : Type :=
| AnyString (s : string)
| AnyOther.

Definition Context := option any_value.

Section Adapter.

Variable env : Env.

(** The type parameter [T] ranges over the names [tname]; [carrier t]
    is the type named [t] and [zero t] its zero value ([var zero T]). *)
Context {tname : Type} `{EqDecision tname}.
Variable carrier : tname -> Type.
Variable zero : forall t, carrier t.

(** [SqlcFactory[T]] is a func type: a value of it may be nil, and a
    call runs caller code. *)
Definition SqlcFactory (t : tname) : Type := option (sqlDB -> Go (carrier t)).

Definition call_factory {t : tname} (factory : SqlcFactory t) (db : sqlDB) : Go (carrier t) :=
  match factory with
  | None => panic nil_dereference
  | Some f => f db
  end.

Definition NewSqlcWithTenantConnection {t : tname} (factory : SqlcFactory t)
    (opts : TenantConnectOptions) : Go (carrier t * option ptr * option error) :=
  r ← GetTenantConnectionV2 env opts;
  match r with
  | Err err => mret (zero t, None, Some err)
  | Ok tenantConn =>
      db ← GetDB (Some tenantConn);
      match db with
      | None =>
          mret (zero t, None, Some (fmt_Errorf "failed to get valid database connection"))
      | Some db =>
          q ← call_factory factory db;
          mret (q, Some tenantConn, None)
      end
  end.

Definition GetConnection {t : tname} (tenant : string) (factory : SqlcFactory t)
  : Go (carrier t * option ptr * option error) :=
  let opts := {| Tenant := tenant; MaxOpenConns := 0; MaxIdleConns := 0; ConnMaxIdle := 0;
                 ConnMaxLifetime := 0; ForceUTC := false; QueryLogger := None;
                 CacheEnabled := true; CacheTTL := 0 |} in
  NewSqlcWithTenantConnection factory opts.

Definition GetConnectionWithOptions {t : tname} (factory : SqlcFactory t)
    (opts : TenantConnectOptions) : Go (carrier t * option ptr * option error) :=
  NewSqlcWithTenantConnection factory opts.

Definition tenant_not_in_context : error := fmt_Errorf "tenant not found in context".

Definition GetConnectionFromContext {t : tname} (ctx : Context) (factory : SqlcFactory t)
  : Go (carrier t * option ptr * option error) :=
  match ctx with
  | Some (AnyString tenant) =>
      if String.eqb tenant "" then mret (zero t, None, Some tenant_not_in_context)
      else GetConnection tenant factory
  | _ => mret (zero t, None, Some tenant_not_in_context)
  end.

(** The package variable [globalFactory any]: nil, or a factory together
    with its dynamic type. *)
Record any_factory : Type := AnyFactory {
  dyn_type : tname;
  dyn_factory : SqlcFactory dyn_type }.

Definition SetGlobalFactory (t : tname) (factory : SqlcFactory t)
    (globalFactory : option any_factory) : option any_factory :=
  Some (AnyFactory t factory).

(** The type assertion [globalFactory.(SqlcFactory[T])]. *)
Definition assert_SqlcFactory (t : tname) (g : any_factory) : option (SqlcFactory t) :=
  match decide (dyn_type g = t) with
  | left e => Some (eq_rect (dyn_type g) SqlcFactory (dyn_factory g) t e)
  | right _ => None
  end.

Definition GetConnectionSimple (t : tname) (globalFactory : option any_factory)
    (tenant : string) : Go (carrier t * option ptr * option error) :=
  match globalFactory with
  | None =>
      mret (zero t, None,
            Some (fmt_Errorf "global factory not set - use SetGlobalFactory first"))
  | Some g =>
      match assert_SqlcFactory t g with
      | None => mret (zero t, None, Some (fmt_Errorf "global factory type mismatch"))
      | Some factory => GetConnection tenant factory
      end
  end.

Definition GetConnectionFromContextSimple (t : tname) (globalFactory : option any_factory)
    (ctx : Context) : Go (carrier t * option ptr * option error) :=
  match ctx with
  | Some (AnyString tenant) =>
      if String.eqb tenant "" then mret (zero t, None, Some tenant_not_in_context)
      else GetConnectionSimple t globalFactory tenant
  | _ => mret (zero t, None, Some tenant_not_in_context)
  end.

End Adapter.

(** [CloseAllTenantConnections]: the placeholder takes the lock, logs
    and returns nil. *)
Definition CloseAllTenantConnections : Go (option error) :=
  Mutex_Lock;;
  with_defer Mutex_Unlock (
    emit (EvPrint "CloseAllTenantConnections called - connections will be closed by cache TTL");;
    mret None).

(** ** catalog_con.go: the catalog connection *)

(** The text of an error ([Error()]). *)
Fixpoint error_text (e : error) : string :=
  match e with
  | errors_New msg => msg
  | fmt_Errorf msg => msg
  | fmt_Errorf_w msg inner => msg +:+ ": " +:+ error_text inner
  end.

(** The package variables [dbCatalog] and [once] ([once_done]: the
    [sync.Once] has run its function). *)
Record CatalogVars := {
  once_done : bool;
  dbCatalog : option sqlDB }.

Section CatalogConnection.

Variable env : Env.

(** [Connect] gives [dbCatalog] its new value, or panics with the error
    of [sql.Open]. *)
Definition Connect (url : string) : Go (option sqlDB) :=
  emit (EvPrint ("vai conectar em:  " +:+ url));;
  o ← sql_Open env (url +:+ "?sslmode=disable");
  match o with
  | Err err => emit (EvPrint "erro aqui?");; panic (error_text err)
  | Ok db => mret (Some db)
  end.

Definition GetCatalogConnection (url : string) (vars : CatalogVars)
  : Go (option sqlDB * CatalogVars) :=
  if once_done vars then mret (dbCatalog vars, vars)
  else
    db ← Connect url;
    mret (db, {| once_done := true; dbCatalog := db |}).

End CatalogConnection.

(** ** practical_dbutils_example.go: a caller of the second generation *)

Record DbQueries := { db : option sqlDB }.

Definition NewDbQueries (h : option sqlDB) : DbQueries := {| db := h |}.

Section Callers.

Variable env : Env.

Definition GetCustomerByID (q : DbQueries) (id : string) : Go (option error) :=
  match db q with
  | None => panic nil_dereference
  | Some h =>
      r ← QueryContext env h "SELECT * FROM customers WHERE id = $1";
      mret (match r with Ok _ => None | Err e => Some e end)
  end.

Definition GetTenantConnectionUpdated (tenant : string)
  : Go (option DbQueries * option ptr * option error) :=
  let opts := {| Tenant := tenant; MaxOpenConns := 25; MaxIdleConns := 25; ConnMaxIdle := 0;
                 ConnMaxLifetime := 0; ForceUTC := true; QueryLogger := None;
                 CacheEnabled := true; CacheTTL := 0 |} in
  r ← GetTenantConnectionV2 env opts;
  match r with
  | Err err =>
      emit (EvPrint ("::::::GetTenantConnection - Erro ao conectar ao tenant::::::: " +:+ tenant));;
      mret (None, None, Some err)
  | Ok tenantConn =>
      obj ← load tenantConn;
      mret (Some (NewDbQueries (DB obj)), Some tenantConn, None)
  end.

Definition ExampleHandler (tenant customerId : string) : Go (option error) :=
  r ← GetTenantConnectionUpdated tenant;
  match r with
  | (_, _, Some err) => mret (Some (fmt_Errorf_w "database error" err))
  | (Some queries, dbConn, None) =>
      with_defer (Close env dbConn;; mret tt) (
        err ← GetCustomerByID queries customerId;
        match err with
        | Some err => mret (Some (fmt_Errorf_w "customer not found" err))
        | None =>
            emit (EvPrint ("Customer " +:+ customerId +:+ " found for tenant " +:+ tenant));;
            mret None
        end)
  | (None, _, None) => panic nil_dereference
  end.

End Callers.

(** The logger a logged operation calls: the pool's own, or the
    package default when none is set. *)
Definition logger_of (obj : TenantConnectionV2) : Logger :=
  match QueryLogger (Options obj) with
  | Some l => l
  | None => DefaultTenantLogger
  end.

(** ** The sqlc types of the examples, for the factory adapter *)

(** usage_example.go: [type Queries struct { db *sql.DB }]. *)
Record Queries := { queries_db : option sqlDB }.

Definition NewQueries (h : option sqlDB) : Queries := {| queries_db := h |}.

(** The two instantiations of [T] in the repository: [*Queries] and
    [*DbQueries]; the zero value of a pointer type is nil. *)
Inductive sqlc_type : Type :=
| TQueries
| TDbQueries.

#[global] Instance sqlc_type_eq_dec : EqDecision sqlc_type.
Proof. solve_decision. Defined.

Definition sqlc_carrier (t : sqlc_type) : Type :=
  match t with
  | TQueries => option Queries
  | TDbQueries => option DbQueries
  end.

Definition sqlc_zero (t : sqlc_type) : sqlc_carrier t :=
  match t with
  | TQueries => None
  | TDbQueries => None
  end.

(** [func(db *sql.DB) *Queries { return NewQueries(db) }] and its
    [DbQueries] counterpart. *)
Definition queriesFactory : SqlcFactory sqlc_carrier TQueries :=
  Some (fun h => mret (Some (NewQueries (Some h)))).

Definition dbQueriesFactory : SqlcFactory sqlc_carrier TDbQueries :=
  Some (fun h => mret (Some (NewDbQueries (Some h)))).

(** ** More sample environments and states *)

(** The catalog store is down: every query fails. *)
Definition catalogDownEnv : Env :=
  {| catalogRows := [];
     catalogFailure := fun _ _ => Some bad_connection;
     openFailure := fun _ _ => None;
     pingResult := fun _ _ _ => None;
     execResult := fun _ _ _ => None;
     queryResult := fun _ _ _ => Ok 0%nat;
     queryRowResult := fun _ _ _ => {| row_err := None; row_rows := Some 0%nat |};
     scanResult := fun _ _ => None;
     closeResult := fun _ _ => None;
     clock := fun _ => 0 |}.

(** The state after a first successful call for tenant "t". *)
Definition builtWorld : World :=
  snd (GetTenantConnectionV2 (quietEnv [catalogRow "t"]) (onlyTenant "t") emptyWorld).


Definition freshCatalogVars : CatalogVars := {| once_done := false; dbCatalog := None |}.

(** * Properties *)

(** ** Unfolding the monad *)

Ltac go_unfold :=
  unfold mbind, mret, Go_mbind, Go_mret, Go_bind, Go_ret, panic, emit.

Lemma string_eqb_false (s t : string) : s ≠ t -> String.eqb s t = false.
Proof. intros Hne. apply String.eqb_neq. exact Hne. Qed.

(** ** Default resolution *)

(** Case analysis on the five zero tests of [resolveDefaults], in the
    order of the source. *)
Ltac defaults_cases opts :=
  unfold resolveDefaults; cbv zeta;
  destruct (CacheTTL opts =? 0) eqn:Ettl; cbn;
  destruct (ConnMaxLifetime opts =? 0) eqn:Elife; cbn;
  destruct (ConnMaxIdle opts =? 0) eqn:Eidle; cbn;
  destruct (MaxOpenConns opts =? 0) eqn:Eopen; cbn;
  destruct (MaxIdleConns opts =? 0) eqn:Emaxidle; cbn;
  destruct (CacheEnabled opts) eqn:Eflag; cbn;
  try (destruct (CacheTTL opts >? 0) eqn:Epos; cbn).

Lemma resolveDefaults_Tenant opts : Tenant (resolveDefaults opts) = Tenant opts.
Proof. defaults_cases opts; reflexivity. Qed.

Lemma resolveDefaults_ForceUTC opts : ForceUTC (resolveDefaults opts) = ForceUTC opts.
Proof. defaults_cases opts; reflexivity. Qed.

Lemma resolveDefaults_QueryLogger opts :
  QueryLogger (resolveDefaults opts) = QueryLogger opts.
Proof. defaults_cases opts; reflexivity. Qed.

Lemma resolveDefaults_CacheTTL opts :
  CacheTTL (resolveDefaults opts) = if CacheTTL opts =? 0 then 55 * Minute else CacheTTL opts.
Proof. defaults_cases opts; reflexivity. Qed.

Lemma resolveDefaults_ConnMaxLifetime opts :
  ConnMaxLifetime (resolveDefaults opts) =
  if ConnMaxLifetime opts =? 0 then 1 * Hour else ConnMaxLifetime opts.
Proof. defaults_cases opts; reflexivity. Qed.

Lemma resolveDefaults_ConnMaxIdle opts :
  ConnMaxIdle (resolveDefaults opts) =
  if ConnMaxIdle opts =? 0 then 1 * Hour else ConnMaxIdle opts.
Proof. defaults_cases opts; reflexivity. Qed.

Lemma resolveDefaults_MaxOpenConns opts :
  MaxOpenConns (resolveDefaults opts) =
  if MaxOpenConns opts =? 0 then 25 else MaxOpenConns opts.
Proof. defaults_cases opts; reflexivity. Qed.

Lemma resolveDefaults_MaxIdleConns opts :
  MaxIdleConns (resolveDefaults opts) =
  if MaxIdleConns opts =? 0 then 25 else MaxIdleConns opts.
Proof. defaults_cases opts; reflexivity. Qed.

(** The flag after default resolution: set by the caller, or any cache
    TTL that is not negative. *)
Lemma resolveDefaults_CacheEnabled opts :
  CacheEnabled (resolveDefaults opts) = CacheEnabled opts || (0 <=? CacheTTL opts).
Proof.
  destruct (Z.leb_spec 0 (CacheTTL opts)) as [Hle | Hlt];
    defaults_cases opts; try reflexivity;
    try (apply Z.eqb_eq in Ettl); try (apply Z.eqb_neq in Ettl);
    try (rewrite Z.gtb_ltb in Epos; apply Z.ltb_ge in Epos);
    try (rewrite Z.gtb_ltb in Epos; apply Z.ltb_lt in Epos);
    try exact Eflag; lia.
Qed.

(** C6: for the options [{Tenant: "x"}] with every other field zero,
    default resolution in GetTenantConnectionV2 gives MaxOpenConns = 25,
    MaxIdleConns = 25, ConnMaxIdle = 1h, ConnMaxLifetime = 1h and
    CacheTTL = 55m (the pool it builds carries these options and the
    handle is configured with them), and for every options value a
    field the caller set to a value other than zero is kept. *)
Theorem C6_default_resolution :
  (let o := resolveDefaults (onlyTenant "x") in
   MaxOpenConns o = 25 /\ MaxIdleConns o = 25 /\ ConnMaxIdle o = 1 * Hour /\
   ConnMaxLifetime o = 1 * Hour /\ CacheTTL o = 55 * Minute) /\
  (let r := GetTenantConnectionV2 (quietEnv [catalogRow "x"]) (onlyTenant "x") emptyWorld in
   fst r = Returns (Ok 0%nat) /\
   Options <$> (heap (snd r) !! 0%nat) = Some (resolveDefaults (onlyTenant "x")) /\
   List.filter is_pool_setting (history (snd r)) =
     [EvSetMaxOpenConns 0%nat 25; EvSetMaxIdleConns 0%nat 25;
      EvSetConnMaxIdleTime 0%nat (1 * Hour); EvSetConnMaxLifetime 0%nat (1 * Hour)]) /\
  (forall opts,
     (MaxOpenConns opts ≠ 0 -> MaxOpenConns (resolveDefaults opts) = MaxOpenConns opts) /\
     (MaxIdleConns opts ≠ 0 -> MaxIdleConns (resolveDefaults opts) = MaxIdleConns opts) /\
     (ConnMaxIdle opts ≠ 0 -> ConnMaxIdle (resolveDefaults opts) = ConnMaxIdle opts) /\
     (ConnMaxLifetime opts ≠ 0 ->
        ConnMaxLifetime (resolveDefaults opts) = ConnMaxLifetime opts) /\
     (CacheTTL opts ≠ 0 -> CacheTTL (resolveDefaults opts) = CacheTTL opts) /\
     (CacheEnabled opts = true -> CacheEnabled (resolveDefaults opts) = true) /\
     Tenant (resolveDefaults opts) = Tenant opts /\
     ForceUTC (resolveDefaults opts) = ForceUTC opts /\
     QueryLogger (resolveDefaults opts) = QueryLogger opts).
Proof.
  split; [| split].
  - cbv zeta. repeat split; reflexivity.
  - cbv zeta. repeat split; vm_compute; reflexivity.
  - intros opts.
    rewrite resolveDefaults_MaxOpenConns, resolveDefaults_MaxIdleConns,
      resolveDefaults_ConnMaxIdle, resolveDefaults_ConnMaxLifetime,
      resolveDefaults_CacheTTL, resolveDefaults_CacheEnabled,
      resolveDefaults_Tenant, resolveDefaults_ForceUTC, resolveDefaults_QueryLogger.
    repeat split; try (intros Hnz; apply Z.eqb_neq in Hnz; rewrite Hnz; reflexivity).
    intros Hflag. rewrite Hflag. reflexivity.
Qed.

Lemma C6_default_resolution_witness :
  MaxOpenConns (resolveDefaults customOptions) = 7 /\
  MaxIdleConns (resolveDefaults customOptions) = 3 /\
  ConnMaxIdle (resolveDefaults customOptions) = 2 * Minute /\
  ConnMaxLifetime (resolveDefaults customOptions) = 5 * Minute /\
  CacheTTL (resolveDefaults customOptions) = 1 * Minute /\
  CacheEnabled (resolveDefaults customOptions) = true.
Proof.
  destruct (proj2 (proj2 C6_default_resolution) customOptions)
    as (Hopen & Hidle & Hmaxidle & Hlife & Httl & Hflag & _).
  split; [apply Hopen; discriminate |].
  split; [apply Hidle; discriminate |].
  split; [apply Hmaxidle; discriminate |].
  split; [apply Hlife; discriminate |].
  split; [apply Httl; discriminate |].
  apply Hflag. reflexivity.
Defined.

(** C7: with an empty tenant string GetTenantConnectionV2 returns a
    validation error and leaves the process as it found it: no catalog
    query, no pool opened, no cache access, no lock taken, and the
    error is a returned value, not a panic. *)
Theorem C7_empty_tenant_rejected env opts w :
  Tenant opts = "" ->
  GetTenantConnectionV2 env opts w =
    (Returns (Err (fmt_Errorf "tenant name is required")), w).
Proof.
  intros Hempty. unfold GetTenantConnectionV2. rewrite Hempty. reflexivity.
Qed.

Lemma C7_empty_tenant_rejected_witness :
  Tenant (onlyTenant "") = "" /\
  GetTenantConnectionV2 (quietEnv [catalogRow "x"]) (onlyTenant "") emptyWorld =
    (Returns (Err (fmt_Errorf "tenant name is required")), emptyWorld).
Proof.
  split; [reflexivity |].
  apply (C7_empty_tenant_rejected (quietEnv [catalogRow "x"]) (onlyTenant "") emptyWorld).
  reflexivity.
Defined.

(** C1: the caller asks for no caching ([CacheEnabled: false], every
    other field unset), as migrations_v2.go does.  The default cache TTL
    is filled in first and the flag test then turns the flag on again:
    the cache is read before the pool is built and the new pool is
    stored in it.  In general the resolved flag is the caller's flag or
    "the cache TTL is not negative". *)
Theorem C1_disabled_cache_is_still_used :
  CacheEnabled (onlyTenant "t") = false /\
  CacheEnabled (resolveDefaults (onlyTenant "t")) = true /\
  (let r := GetTenantConnectionV2 (quietEnv [catalogRow "t"]) (onlyTenant "t") emptyWorld in
   fst r = Returns (Ok 0%nat) /\
   history (snd r) =
     [EvMutexLock; EvCacheGet "con-v2-t"; EvMutexUnlock;
      EvCatalogQuery "t"; EvSqlOpen "postgres://u:p@h/d?sslmode=disable" 0%nat;
      EvSetMaxOpenConns 0%nat 25; EvSetMaxIdleConns 0%nat 25;
      EvSetConnMaxIdleTime 0%nat (1 * Hour); EvSetConnMaxLifetime 0%nat (1 * Hour);
      EvPing 0%nat SetupCtx; EvExec 0%nat SetupCtx "SET search_path TO t";
      EvPing 0%nat SetupCtx;
      EvMutexLock; EvCacheSetWithTTL "con-v2-t" 1 (55 * Minute); EvMutexUnlock;
      EvPrint "TenantConnectionV2 created for tenant: t"] /\
   Connections (snd r) !! "con-v2-t" = Some (CachedTenantV2 0%nat)) /\
  (forall opts,
     CacheEnabled (resolveDefaults opts) = CacheEnabled opts || (0 <=? CacheTTL opts)).
Proof.
  split; [reflexivity |]. split; [reflexivity |]. split.
  - cbv zeta. repeat split; vm_compute; reflexivity.
  - apply resolveDefaults_CacheEnabled.
Qed.

(** ** Catalog resolution *)

Lemma GetTenant_no_row env tenant w :
  no_catalog_row env tenant ->
  GetTenant env tenant w =
    (Returns (Err ErrRecordNotFound), record (EvCatalogQuery tenant) w).
Proof.
  intros [Hanswer Hfind]. unfold GetTenant, catalog_scan. go_unfold.
  rewrite Hanswer, Hfind. reflexivity.
Qed.

(** C3 (as amended): when the catalog query for a tenant key finds no
    row, GetTenant returns exactly ErrRecordNotFound; and
    GetTenantConnectionV2 for that tenant, when the cache holds no entry
    under the tenant's v2 key, returns an error that wraps
    ErrRecordNotFound, opens no pool, allocates no pool object and
    leaves the cache as it was. *)
Theorem C3_unknown_tenant env opts w :
  Tenant opts ≠ "" ->
  mutexHeld w = false ->
  Connections w !! cacheKeyV2 (Tenant opts) = None ->
  no_catalog_row env (Tenant opts) ->
  (forall w0, fst (GetTenant env (Tenant opts) w0) = Returns (Err ErrRecordNotFound)) /\
  exists e w',
    GetTenantConnectionV2 env opts w = (Returns (Err e), w') /\
    e = fmt_Errorf_w "failed to get tenant info" ErrRecordNotFound /\
    errors_Is e ErrRecordNotFound = true /\
    Connections w' = Connections w /\
    heap w' = heap w /\
    nextDB w' = nextDB w /\
    mutexHeld w' = false /\
    trace w' =
      EvCatalogQuery (Tenant opts) ::
      (if CacheEnabled (resolveDefaults opts)
       then [EvMutexUnlock; EvCacheGet (cacheKeyV2 (Tenant opts)); EvMutexLock]
       else []) ++ trace w.
Proof.
  intros Hname Hfree Hmiss Hrow. split.
  - intros w0. rewrite GetTenant_no_row by exact Hrow. reflexivity.
  - unfold GetTenantConnectionV2. rewrite (string_eqb_false _ _ Hname).
    cbv zeta. unfold lookupCached, buildPool.
    rewrite resolveDefaults_Tenant.
    destruct (CacheEnabled (resolveDefaults opts)) eqn:Hflag.
    + go_unfold. unfold Mutex_Lock. rewrite Hfree.
      unfold Connections_Get. cbn. rewrite Hmiss. cbn.
      rewrite GetTenant_no_row by exact Hrow.
      do 2 eexists. split; [reflexivity |].
      cbn. repeat split; reflexivity.
    + go_unfold. rewrite GetTenant_no_row by exact Hrow.
      do 2 eexists. split; [reflexivity |].
      cbn. repeat split; try reflexivity. exact Hfree.
Qed.

Lemma C3_unknown_tenant_witness :
  exists e w',
    GetTenantConnectionV2 (quietEnv [catalogRow "acme"]) (onlyTenant "ghost") emptyWorld =
      (Returns (Err e), w') /\
    errors_Is e ErrRecordNotFound = true /\
    Connections w' = Connections emptyWorld.
Proof.
  destruct (C3_unknown_tenant (quietEnv [catalogRow "acme"]) (onlyTenant "ghost") emptyWorld)
    as [_ (e & w' & Hrun & _ & His & Hcache & _)].
  - discriminate.
  - reflexivity.
  - reflexivity.
  - split; [intros tr; reflexivity | reflexivity].
  - exists e, w'. split; [exact Hrun | split; [exact His | exact Hcache]].
Defined.

(** The claim as stated fails when the cache still holds a live pool
    for a tenant whose catalog row is gone: the cached pool is returned
    and the catalog is not asked. *)
Lemma C3_counterexample :
  no_catalog_row (quietEnv []) "t" /\
  (let r := GetTenantConnectionV2 (quietEnv []) (onlyTenant "t")
              (cachedWorld "t" (Some 0%nat) false) in
   fst r = Returns (Ok 0%nat) /\
   history (snd r) =
     [EvMutexLock; EvCacheGet "con-v2-t"; EvMutexUnlock; EvPing 0%nat CallerCtx] /\
   Connections (snd r) !! "con-v2-t" = Some (CachedTenantV2 0%nat)).
Proof.
  split.
  - split; [intros tr; reflexivity | reflexivity].
  - cbv zeta. repeat split; vm_compute; reflexivity.
Qed.

(** ** The cache lookup and the global lock *)

(** C2: caching is on, the cache holds a v2 pool under the tenant's key
    and the pool's liveness probe fails.  The lock is released right
    after the lookup, the stale entry is deleted with the lock no longer
    held, and the second release then hits a mutex that is not held:
    the run ends in the runtime's fatal error. *)
Theorem C2_stale_entry_unlocks_twice env opts w p obj db e :
  Tenant opts ≠ "" ->
  CacheEnabled (resolveDefaults opts) = true ->
  mutexHeld w = false ->
  Connections w !! cacheKeyV2 (Tenant opts) = Some (CachedTenantV2 p) ->
  heap w !! p = Some obj ->
  DB obj = Some db ->
  pingResult env
    (EvMutexUnlock :: EvCacheGet (cacheKeyV2 (Tenant opts)) :: EvMutexLock :: trace w)
    db CallerCtx = Some e ->
  GetTenantConnectionV2 env opts w =
    (Fatal "fatal error: sync: unlock of unlocked mutex",
     {| mutexHeld := false;
        Connections := delete (cacheKeyV2 (Tenant opts)) (Connections w);
        heap := heap w;
        nextDB := nextDB w;
        trace := EvCacheDel (cacheKeyV2 (Tenant opts)) :: EvPing db CallerCtx ::
                 EvMutexUnlock :: EvCacheGet (cacheKeyV2 (Tenant opts)) ::
                 EvMutexLock :: trace w |}) /\
  lock_discipline false
    [EvMutexLock; EvCacheGet (cacheKeyV2 (Tenant opts)); EvMutexUnlock;
     EvPing db CallerCtx; EvCacheDel (cacheKeyV2 (Tenant opts))] = false.
Proof.
  intros Hname Hflag Hfree Hhit Hobj Hdb Hping. split; [| reflexivity].
  unfold GetTenantConnectionV2. rewrite (string_eqb_false _ _ Hname).
  cbv zeta. unfold lookupCached. rewrite resolveDefaults_Tenant, Hflag.
  go_unfold. unfold Mutex_Lock. rewrite Hfree.
  unfold Connections_Get. cbn. rewrite Hhit. cbn.
  unfold load. cbn. rewrite Hobj, Hdb. cbn. rewrite Hping. reflexivity.
Qed.

Lemma C2_stale_entry_unlocks_twice_witness :
  fst (GetTenantConnectionV2 (staleEnv [catalogRow "t"]) (onlyTenant "t")
         (cachedWorld "t" (Some 0%nat) false)) =
    Fatal "fatal error: sync: unlock of unlocked mutex" /\
  history (snd (GetTenantConnectionV2 (staleEnv [catalogRow "t"]) (onlyTenant "t")
                  (cachedWorld "t" (Some 0%nat) false))) =
    [EvMutexLock; EvCacheGet "con-v2-t"; EvMutexUnlock; EvPing 0%nat CallerCtx;
     EvCacheDel "con-v2-t"].
Proof.
  destruct (C2_stale_entry_unlocks_twice (staleEnv [catalogRow "t"]) (onlyTenant "t")
              (cachedWorld "t" (Some 0%nat) false) 0%nat
              (poolOf "t" (Some 0%nat) false) 0%nat bad_connection) as [Hrun _].
  - discriminate.
  - reflexivity.
  - reflexivity.
  - reflexivity.
  - reflexivity.
  - reflexivity.
  - reflexivity.
  - rewrite Hrun. split; reflexivity.
Defined.

(** Every other path keeps the discipline: a run of
    GetTenantConnectionV2 that starts with the lock free and does not
    end in a fatal error takes and releases the lock in turn, writes the
    cache only while holding it, and leaves it free. *)

Ltac prefix_before l t :=
  lazymatch l with
  | t => constr:(@nil Event)
  | ?e :: ?l' => let r := prefix_before l' t in constr:(e :: r)
  end.

Ltac give_prefix :=
  match goal with
  | |- exists new, ?l = new ++ ?t /\ _ =>
      let p := prefix_before l t in exists p
  end.







(** X27: Close, started with the global lock free, deletes the cache
    entry between its own Lock and Unlock and leaves the lock free,
    whatever its outcome. *)
Lemma Close_lock_discipline env p w out w' :
  mutexHeld w = false ->
  Close env (Some p) w = (out, w') ->
  disciplined w w'.
Proof.
  unfold disciplined, Close, load, DB_Close, mark_closed, Mutex_Lock, Mutex_Unlock,
    Connections_Del.
  go_unfold. intros Hfree.
  repeat (case_match; simplify_eq /=); try congruence.
  all: intros; simplify_eq /=; give_prefix.
  all: repeat split; try reflexivity; assumption.
Qed.

(** ** Close and the closed flag *)

Lemma Close_already_closed env w p obj :
  heap w !! p = Some obj ->
  closed obj || isNil (DB obj) = true ->
  Close env (Some p) w = (Returns None, w).
Proof.
  intros Hobj Hguard. unfold Close, load. go_unfold. rewrite Hobj, Hguard. reflexivity.
Qed.

(** C4 (as amended): Close is idempotent: on every pool a first call
    returns, and a second call is a no-op that returns no error (it does
    not panic and changes nothing).  After a call to Close on a pool
    whose handle is set, the closed flag is true whatever the handle's
    own close returned, and that result is what Close returns; a flag
    that was true stays true. *)
Theorem C4_Close_idempotent env w p obj :
  heap w !! p = Some obj ->
  mutexHeld w = false ->
  exists err w1,
    Close env (Some p) w = (Returns err, w1) /\
    Close env (Some p) w1 = (Returns None, w1) /\
    (closed obj = true \/ is_Some (DB obj) -> closed_flag w1 p = Some true) /\
    (forall db, closed obj = false -> DB obj = Some db ->
       exists tr, err = closeResult env tr db /\ In (EvDBClose db) (trace w1)) /\
    mutexHeld w1 = false.
Proof.
  intros Hobj Hfree.
  destruct (closed obj) eqn:Hclosed.
  - exists None, w. rewrite (Close_already_closed env w p obj Hobj) by (rewrite Hclosed; reflexivity).
    repeat split; try assumption.
    + intros _. unfold closed_flag. rewrite Hobj. cbn. rewrite Hclosed. reflexivity.
    + intros db Hcontra. discriminate.
  - destruct (DB obj) as [db |] eqn:Hdb.
    + unfold Close at 1. unfold load. go_unfold. rewrite Hobj, Hclosed, Hdb. cbn.
      destruct (CacheEnabled (Options obj)) eqn:Hflag.
      * unfold Mutex_Lock. rewrite Hfree. cbn.
        do 2 eexists. split; [reflexivity |]. split; [| split; [| split]].
        -- apply (Close_already_closed env _ p (set_closed true obj)).
           ++ cbn. rewrite lookup_alter_eq, Hobj. reflexivity.
           ++ reflexivity.
        -- intros _. unfold closed_flag. cbn. rewrite lookup_alter_eq, Hobj. reflexivity.
        -- intros db' _ Hdb'. injection Hdb' as <-. eexists. split; [reflexivity |].
           cbn. auto.
        -- reflexivity.
      * cbn. do 2 eexists. split; [reflexivity |]. split; [| split; [| split]].
        -- apply (Close_already_closed env _ p (set_closed true obj)).
           ++ cbn. rewrite lookup_alter_eq, Hobj. reflexivity.
           ++ reflexivity.
        -- intros _. unfold closed_flag. cbn. rewrite lookup_alter_eq, Hobj. reflexivity.
        -- intros db' _ Hdb'. injection Hdb' as <-. eexists. split; [reflexivity |].
           cbn. auto.
        -- exact Hfree.
    + exists None, w.
      rewrite (Close_already_closed env w p obj Hobj)
        by (rewrite Hclosed, Hdb; reflexivity).
      repeat split; try assumption.
      * intros [Hcontra | [db Hcontra]]; discriminate.
      * intros db _ Hcontra. discriminate.
Qed.


Lemma C4_Close_idempotent_witness :
  exists w1,
    Close closeFailEnv (Some 0%nat) (cachedWorld "t" (Some 0%nat) false) =
      (Returns (Some bad_connection), w1) /\
    Close closeFailEnv (Some 0%nat) w1 = (Returns None, w1) /\
    closed_flag w1 0%nat = Some true.
Proof.
  destruct (C4_Close_idempotent closeFailEnv (cachedWorld "t" (Some 0%nat) false) 0%nat
              (poolOf "t" (Some 0%nat) false))
    as (err & w1 & Hfirst & Hsecond & Hflag & Herr & _).
  - reflexivity.
  - reflexivity.
  - destruct (Herr 0%nat eq_refl eq_refl) as (tr & -> & _).
    exists w1. split; [exact Hfirst | split; [exact Hsecond |]].
    apply Hflag. right. eexists. reflexivity.
Defined.

(** The claim as stated fails on a pool whose handle is nil: Close
    returns at its guard and the closed flag stays false. *)
Lemma C4_counterexample :
  let w := loneWorld (poolOf "t" None false) in
  Close (quietEnv []) (Some 0%nat) w = (Returns None, w) /\
  closed_flag w 0%nat = Some false.
Proof. cbv zeta. split; reflexivity. Qed.

(** ** Operations on a closed pool and on a nil receiver *)

Lemma GetDB_closed w p obj :
  heap w !! p = Some obj -> closed obj = true ->
  GetDB (Some p) w = (Returns None, w).
Proof.
  intros Hobj Hclosed. unfold GetDB, load. go_unfold. rewrite Hobj, Hclosed. reflexivity.
Qed.

(** C5: on a pool whose closed flag is set IsHealthy returns false,
    GetDB returns nil, ExecWithLog and QueryWithLog return an error
    without calling the logger or the database, and QueryRowWithLog
    returns the zero [sql.Row] without calling either.  That zero row
    does not error on first use: its [Err] is nil and its [Scan] reads
    through the nil [rows] field and panics. *)
Theorem C5_closed_pool_operations env w p obj query args :
  heap w !! p = Some obj ->
  closed obj = true ->
  IsHealthy env (Some p) w = (Returns false, w) /\
  GetDB (Some p) w = (Returns None, w) /\
  ExecWithLog env (Some p) query args w =
    (Returns (Err (fmt_Errorf "connection is closed or invalid")), w) /\
  QueryWithLog env (Some p) query args w =
    (Returns (Err (fmt_Errorf "connection is closed or invalid")), w) /\
  QueryRowWithLog env (Some p) query args w = (Returns zeroRow, w) /\
  Row_Err zeroRow = None /\
  Row_Scan env zeroRow w = (Panics nil_dereference, w).
Proof.
  intros Hobj Hclosed.
  pose proof (GetDB_closed w p obj Hobj Hclosed) as Hdb.
  repeat split; try exact Hdb.
  - unfold IsHealthy, load. go_unfold. rewrite Hobj, Hclosed. reflexivity.
  - unfold ExecWithLog. go_unfold. rewrite Hdb. reflexivity.
  - unfold QueryWithLog. go_unfold. rewrite Hdb. reflexivity.
  - unfold QueryRowWithLog. go_unfold. rewrite Hdb. reflexivity.
Qed.

Lemma C5_closed_pool_operations_witness :
  let w := loneWorld (poolOf "t" (Some 0%nat) true) in
  IsHealthy (quietEnv []) (Some 0%nat) w = (Returns false, w) /\
  QueryRowWithLog (quietEnv []) (Some 0%nat) "SELECT 1" [] w = (Returns zeroRow, w) /\
  Row_Scan (quietEnv []) zeroRow w = (Panics nil_dereference, w).
Proof.
  cbv zeta.
  destruct (C5_closed_pool_operations (quietEnv []) (loneWorld (poolOf "t" (Some 0%nat) true))
              0%nat (poolOf "t" (Some 0%nat) true) "SELECT 1" [])
    as (Hhealthy & _ & _ & _ & Hrow & _ & Hscan).
  - reflexivity.
  - reflexivity.
  - split; [exact Hhealthy | split; [exact Hrow | exact Hscan]].
Defined.

(** C10: on a nil receiver Close returns no error, IsHealthy returns
    false and GetDB returns nil, and the three logged operations return
    through GetDB's nil; none of them touches the process.  GetAge has
    no nil guard: it reads [createdAt] through the nil receiver and
    panics. *)
Theorem C10_nil_receiver env w query args :
  Close env None w = (Returns None, w) /\
  IsHealthy env None w = (Returns false, w) /\
  GetDB None w = (Returns None, w) /\
  ExecWithLog env None query args w =
    (Returns (Err (fmt_Errorf "connection is closed or invalid")), w) /\
  QueryWithLog env None query args w =
    (Returns (Err (fmt_Errorf "connection is closed or invalid")), w) /\
  QueryRowWithLog env None query args w = (Returns zeroRow, w) /\
  GetAge env None w = (Panics nil_dereference, w).
Proof. repeat split; reflexivity. Qed.

(** ** Handles of a failed construction *)

Lemma leaked_app_no_open h1 h2 :
  forallb (fun e => negb (is_open e)) h1 = true -> leaked (h1 ++ h2) = leaked h2.
Proof.
  induction h1 as [| e h1 IH]; cbn; [reflexivity |].
  intros Hall. apply andb_true_iff in Hall as [He Hrest].
  destruct e; cbn in *; try discriminate; auto.
Qed.

Lemma lookupCached_no_open env opts w r w' :
  lookupCached env opts w = (Returns r, w') ->
  exists new, trace w' = new ++ trace w /\
              forallb (fun e => negb (is_open e)) (rev new) = true.
Proof.
  unfold lookupCached, PingContext, load, assert_TenantConnectionV2,
    Mutex_Lock, Mutex_Unlock, Connections_Get, Connections_Del.
  go_unfold.
  repeat (case_match; simplify_eq /=).
  all: intros; simplify_eq /=; give_prefix.
  all: split; reflexivity.
Qed.

Lemma buildPool_releases_handle env opts w e w' :
  buildPool env opts w = (Returns (Err e), w') ->
  exists new, trace w' = new ++ trace w /\ leaked (rev new) = [].
Proof.
  unfold buildPool, GetTenant, catalog_scan, sql_Open, PingContext, ExecContext,
    DB_Close, time_Now, alloc, Mutex_Lock, Mutex_Unlock, Connections_SetWithTTL.
  go_unfold.
  repeat (case_match; simplify_eq /=).
  all: intros; simplify_eq /=; give_prefix.
  all: split; [reflexivity |]; cbn; rewrite ?Nat.eqb_refl; reflexivity.
Qed.

(** X11: whenever GetTenantConnectionV2 returns an error, every handle
    it opened on the way (at most one) was closed before it returned:
    after the first ping, the search_path statement, the timezone
    statement or the final ping failed. *)
Lemma GetTenantConnectionV2_releases_handle env opts w e w' :
  GetTenantConnectionV2 env opts w = (Returns (Err e), w') ->
  exists new, trace w' = new ++ trace w /\ leaked (rev new) = [].
Proof.
  unfold GetTenantConnectionV2.
  destruct (String.eqb (Tenant opts) "").
  - intros [= <- <-]. exists []. split; reflexivity.
  - cbv zeta. unfold mbind, Go_mbind, Go_bind.
    destruct (lookupCached env (resolveDefaults opts) w) as [[hit | | |] w1] eqn:Hlook;
      try discriminate.
    destruct hit as [tc |]; [discriminate |].
    intros Hbuild.
    apply lookupCached_no_open in Hlook as (new1 & Htr1 & Hno).
    apply buildPool_releases_handle in Hbuild as (new2 & Htr2 & Hleak).
    exists (new2 ++ new1). split.
    + rewrite Htr2, Htr1. apply app_assoc.
    + rewrite rev_app_distr. rewrite leaked_app_no_open by exact Hno. exact Hleak.
Qed.

(** The first generation never closes a handle, on any path of either
    revision. *)
Lemma GetTenantConnection_never_closes env tenant w out w' :
  GetTenantConnection env tenant w = (out, w') \/
  GetTenantConnection_shared env tenant w = (out, w') ->
  exists new, trace w' = new ++ trace w /\
              forallb (fun e => negb (is_close e)) new = true.
Proof.
  unfold GetTenantConnection, GetTenantConnection_shared, with_defer, GetTenant,
    catalog_scan, sql_Open, ExecContext, assert_Connection, Mutex_Lock, Mutex_Unlock,
    Connections_Get, Connections_SetWithTTL.
  go_unfold.
  intros [Hrun | Hrun]; revert Hrun.
  all: repeat (case_match; simplify_eq /=).
  all: intros; simplify_eq /=; give_prefix.
  all: split; reflexivity.
Qed.

(** C8: the first generation opens a handle and, when the search_path
    statement fails, returns the error without closing it (both
    revisions of tenant_con.go); on the same input the second
    generation closes the handle before it returns. *)
Theorem C8_v1_leaks_handle_on_search_path_failure :
  (let r := GetTenantConnection (execFailEnv [catalogRow "t"]) "t" emptyWorld in
   fst r = Returns (Err bad_connection) /\
   history (snd r) =
     [EvMutexLock; EvCacheGet "con-t"; EvCatalogQuery "t";
      EvSqlOpen "postgres://u:p@h/d?sslmode=disable" 0%nat;
      EvPrint "Connection create for tenant t";
      EvExec 0%nat BackgroundCtx "SET search_path TO t"; EvMutexUnlock] /\
   leaked (history (snd r)) = [0%nat]) /\
  (let r := GetTenantConnection_shared (execFailEnv [catalogRow "t"]) "t" emptyWorld in
   fst r = Returns (Err bad_connection) /\
   leaked (history (snd r)) = [0%nat]) /\
  (let r := GetTenantConnectionV2 (execFailEnv [catalogRow "t"]) (onlyTenant "t") emptyWorld in
   fst r = Returns (Err (fmt_Errorf_w "failed to set search_path for tenant t" bad_connection)) /\
   history (snd r) =
     [EvMutexLock; EvCacheGet "con-v2-t"; EvMutexUnlock; EvCatalogQuery "t";
      EvSqlOpen "postgres://u:p@h/d?sslmode=disable" 0%nat;
      EvSetMaxOpenConns 0%nat 25; EvSetMaxIdleConns 0%nat 25;
      EvSetConnMaxIdleTime 0%nat (1 * Hour); EvSetConnMaxLifetime 0%nat (1 * Hour);
      EvPing 0%nat SetupCtx; EvExec 0%nat SetupCtx "SET search_path TO t";
      EvDBClose 0%nat] /\
   leaked (history (snd r)) = []).
Proof. cbv zeta. repeat split; vm_compute; reflexivity. Qed.

(** ** Cache keys of the two generations *)

Lemma string_not_own_suffix (a b c : Ascii.ascii) (t : string) :
  t ≠ String a (String b (String c t)).
Proof.
  intros Heq. apply (f_equal String.length) in Heq. cbn in Heq. lia.
Qed.

Lemma cache_keys_equal_iff t1 t2 :
  cacheKeyV1 t1 = cacheKeyV2 t2 <-> t1 = "v2-" +:+ t2.
Proof.
  unfold cacheKeyV1, cacheKeyV2, prefixConnection. cbn. split.
  - intros Heq. injection Heq as Heq. exact Heq.
  - intros ->. reflexivity.
Qed.

(** C9 (as amended): the v1 cache key of [t1] and the v2 cache key of
    [t2] are distinct whenever [t1] is not ["v2-"] followed by [t2]; in
    particular the two keys of one and the same tenant are distinct. *)
Theorem C9_cache_keys_distinct t1 t2 :
  (t1 ≠ "v2-" +:+ t2 -> cacheKeyV1 t1 ≠ cacheKeyV2 t2) /\
  cacheKeyV1 t2 ≠ cacheKeyV2 t2.
Proof.
  split.
  - intros Hne Heq. apply Hne. apply cache_keys_equal_iff. exact Heq.
  - intros Heq. apply cache_keys_equal_iff in Heq. cbn in Heq.
    exact (string_not_own_suffix _ _ _ _ Heq).
Qed.

Lemma C9_cache_keys_distinct_witness :
  cacheKeyV1 "acme" ≠ cacheKeyV2 "globex".
Proof.
  apply (proj1 (C9_cache_keys_distinct "acme" "globex")). discriminate.
Defined.

(** The claim as stated fails for the tenant keys "v2-acme" and "acme":
    both generations use the key "con-v2-acme", and the first
    generation, looking up "v2-acme", finds the v2 pool of "acme" and
    panics on its type assertion. *)
Lemma C9_counterexample :
  cacheKeyV1 "v2-acme" = cacheKeyV2 "acme" /\
  fst (GetTenantConnection (quietEnv []) "v2-acme" (cachedWorld "acme" (Some 0%nat) false)) =
    Panics "interface conversion: interface {} is *connection.TenantConnectionV2, not connection.Connection".
Proof. split; vm_compute; reflexivity. Qed.

(** * Further properties of the code *)

Ltac all_cases := repeat (case_match; simplify_eq /=); try congruence.

Ltac run_lookup :=
  unfold lookupCached, PingContext, load, assert_TenantConnectionV2,
    Mutex_Lock, Mutex_Unlock, Connections_Get, Connections_Del;
  go_unfold.

Ltac run_build :=
  unfold buildPool, GetTenant, catalog_scan, sql_Open, PingContext, ExecContext,
    DB_Close, time_Now, alloc, Mutex_Lock, Mutex_Unlock, Connections_SetWithTTL;
  go_unfold.

Ltac run_close :=
  unfold Close, load, DB_Close, mark_closed, Mutex_Lock, Mutex_Unlock, Connections_Del;
  go_unfold.

Ltac run_v1 :=
  unfold GetTenantConnection, GetTenantConnection_shared, with_defer, GetTenant,
    catalog_scan, sql_Open, ExecContext, assert_Connection, Mutex_Lock, Mutex_Unlock,
    Connections_Get, Connections_SetWithTTL;
  go_unfold.

Lemma run_is_pair {A} (r : outcome A * World) : r = (fst r, snd r).
Proof. destruct r. reflexivity. Defined.

(** ** Witnesses of the lock and handle properties above *)


Lemma Close_lock_discipline_witness :
  disciplined builtWorld (snd (Close (quietEnv []) (Some 0%nat) builtWorld)).
Proof.
  apply (Close_lock_discipline (quietEnv []) 0%nat builtWorld
           (fst (Close (quietEnv []) (Some 0%nat) builtWorld))).
  - vm_compute. reflexivity.
  - apply run_is_pair.
Defined.

Lemma GetTenantConnectionV2_releases_handle_witness :
  exists new,
    trace (snd (GetTenantConnectionV2 (execFailEnv [catalogRow "t"]) (onlyTenant "t")
                  emptyWorld)) = new ++ trace emptyWorld /\
    leaked (rev new) = [].
Proof.
  apply (GetTenantConnectionV2_releases_handle (execFailEnv [catalogRow "t"]) (onlyTenant "t")
           emptyWorld (fmt_Errorf_w "failed to set search_path for tenant t" bad_connection)).
  vm_compute. reflexivity.
Defined.

(** ** catalog_con.go: GetTenant *)



(** X2: an error returned by GetTenant never matches sql.ErrNoRows
    under errors.Is: it is ErrRecordNotFound, or the store's own error
    handed on unchanged. *)
Theorem GetTenant_error_mapping env tenant w e w' :
  GetTenant env tenant w = (Returns (Err e), w') ->
  errors_Is e sql_ErrNoRows = false /\
  (e = ErrRecordNotFound \/ catalogFailure env (trace w) tenant = Some e) /\
  w' = record (EvCatalogQuery tenant) w.
Proof.
  unfold GetTenant, catalog_scan. go_unfold. all_cases.
  all: intros; simplify_eq /=; auto.
Qed.

Lemma GetTenant_error_mapping_witness :
  errors_Is bad_connection sql_ErrNoRows = false /\
  (bad_connection = ErrRecordNotFound \/
   catalogFailure catalogDownEnv (trace emptyWorld) "t" = Some bad_connection).
Proof.
  destruct (GetTenant_error_mapping catalogDownEnv "t" emptyWorld bad_connection
              (record (EvCatalogQuery "t") emptyWorld) eq_refl)
    as (His & Horigin & _).
  split; assumption.
Defined.

(** ** tenant_con_v2.go: default resolution *)

(** X3: default resolution is idempotent: resolving options that are
    already resolved (such as the [Options] a pool carries) changes
    nothing. *)
Theorem resolveDefaults_idempotent opts :
  resolveDefaults (resolveDefaults opts) = resolveDefaults opts.
Proof.
  assert (Hext : forall a b : TenantConnectOptions,
    Tenant a = Tenant b -> MaxOpenConns a = MaxOpenConns b -> MaxIdleConns a = MaxIdleConns b ->
    ConnMaxIdle a = ConnMaxIdle b -> ConnMaxLifetime a = ConnMaxLifetime b ->
    ForceUTC a = ForceUTC b -> QueryLogger a = QueryLogger b ->
    CacheEnabled a = CacheEnabled b -> CacheTTL a = CacheTTL b -> a = b).
  { intros [] []; cbn; intros; subst; reflexivity. }
  apply Hext;
    rewrite ?resolveDefaults_Tenant, ?resolveDefaults_ForceUTC, ?resolveDefaults_QueryLogger,
      ?resolveDefaults_MaxOpenConns, ?resolveDefaults_MaxIdleConns, ?resolveDefaults_ConnMaxIdle,
      ?resolveDefaults_ConnMaxLifetime, ?resolveDefaults_CacheTTL, ?resolveDefaults_CacheEnabled;
    try reflexivity.
  all: repeat match goal with
       | |- context [?x =? 0] => destruct (Z.eqb_spec x 0)
       end; try reflexivity; try (exfalso; vm_compute in *; congruence).
  all: rewrite ?resolveDefaults_CacheTTL.
  all: repeat match goal with
       | |- context [?x =? 0] => destruct (Z.eqb_spec x 0)
       end; try reflexivity.
  all: try (destruct (CacheEnabled opts); cbn; try reflexivity).
  all: try (rewrite e; reflexivity).
  all: try (destruct (0 <=? CacheTTL opts); reflexivity).
Qed.

(** X4: after default resolution none of MaxOpenConns, MaxIdleConns,
    ConnMaxIdle, ConnMaxLifetime and CacheTTL is zero.  Only zero is
    replaced: a negative value is kept as it is (a negative
    MaxOpenConns reaches SetMaxOpenConns), and with a negative CacheTTL
    the cache flag stays as the caller set it. *)
Theorem resolveDefaults_no_zero opts :
  let o := resolveDefaults opts in
  MaxOpenConns o <> 0 /\ MaxIdleConns o <> 0 /\ ConnMaxIdle o <> 0 /\
  ConnMaxLifetime o <> 0 /\ CacheTTL o <> 0 /\
  (MaxOpenConns opts < 0 -> MaxOpenConns o = MaxOpenConns opts) /\
  (CacheTTL opts < 0 -> CacheTTL o = CacheTTL opts /\ CacheEnabled o = CacheEnabled opts).
Proof.
  cbv zeta.
  rewrite resolveDefaults_MaxOpenConns, resolveDefaults_MaxIdleConns, resolveDefaults_ConnMaxIdle,
      resolveDefaults_ConnMaxLifetime, resolveDefaults_CacheTTL, resolveDefaults_CacheEnabled.
  repeat match goal with
       | |- context [?x =? 0] => destruct (Z.eqb_spec x 0)
       end; repeat split; try assumption; try discriminate; try lia; intros;
    try (destruct (Z.leb_spec 0 (CacheTTL opts)); [lia | apply orb_false_r]).
Qed.

(** ** tenant_con_v2.go: GetTenantConnectionV2 *)

Lemma lookupCached_effect env opts w out w' :
  lookupCached env opts w = (out, w') ->
  heap w' = heap w /\ nextDB w' = nextDB w /\
  (Connections w' = Connections w \/
   Connections w' = delete (cacheKeyV2 (Tenant opts)) (Connections w)).
Proof.
  run_lookup. all_cases.
  all: intros; simplify_eq /=; auto.
Qed.

Lemma lookupCached_hit env opts w p w' :
  lookupCached env opts w = (Returns (Some p), w') ->
  CacheEnabled opts = true /\
  Connections w !! cacheKeyV2 (Tenant opts) = Some (CachedTenantV2 p) /\
  (exists obj h, heap w !! p = Some obj /\ DB obj = Some h /\
     pingResult env (EvMutexUnlock :: EvCacheGet (cacheKeyV2 (Tenant opts)) ::
                     EvMutexLock :: trace w) h CallerCtx = None /\
     trace w' = EvPing h CallerCtx :: EvMutexUnlock ::
                EvCacheGet (cacheKeyV2 (Tenant opts)) :: EvMutexLock :: trace w) /\
  Connections w' = Connections w /\ heap w' = heap w /\ nextDB w' = nextDB w /\
  mutexHeld w' = false.
Proof.
  run_lookup. all_cases.
  all: intros; simplify_eq /=.
  repeat split; eauto 10.
Qed.

Lemma lookupCached_fallthrough env opts w w' :
  mutexHeld w = false ->
  lookupCached env opts w = (Returns None, w') ->
  (CacheEnabled opts = true -> Connections w !! cacheKeyV2 (Tenant opts) = None) /\
  Connections w' = Connections w /\ heap w' = heap w /\ nextDB w' = nextDB w /\
  mutexHeld w' = false.
Proof.
  intros Hfree. run_lookup. all_cases.
  all: intros; simplify_eq /=; repeat split; auto; congruence.
Qed.

Lemma buildPool_success env opts w p w' :
  mutexHeld w = false ->
  buildPool env opts w = (Returns (Ok p), w') ->
  p = fresh (dom (heap w)) /\
  (exists now,
     heap w' = <[p := {| DB := Some (nextDB w); SearchPath := Tenant opts; Options := opts;
                          createdAt := now; closed := false |}]> (heap w)) /\
  Connections w' =
    (if CacheEnabled opts
     then <[cacheKeyV2 (Tenant opts) := CachedTenantV2 p]> (Connections w)
     else Connections w) /\
  nextDB w' = S (nextDB w) /\
  mutexHeld w' = false.
Proof.
  intros Hfree. run_build. all_cases.
  all: intros; simplify_eq /=; repeat split; eauto.
Qed.

Lemma buildPool_effect env opts w out w' :
  buildPool env opts w = (out, w') ->
  (heap w' = heap w \/ exists obj, heap w' = <[fresh (dom (heap w)) := obj]> (heap w)) /\
  (Connections w' = Connections w \/
   exists p, Connections w' = <[cacheKeyV2 (Tenant opts) := CachedTenantV2 p]> (Connections w)).
Proof.
  run_build. all_cases.
  all: intros; simplify_eq /=; split; eauto.
Qed.

Lemma fresh_not_allocated (h : gmap ptr TenantConnectionV2) p obj :
  h !! p = Some obj -> fresh (dom h) ≠ p.
Proof.
  intros Hp Heq. apply (is_fresh (dom h)). rewrite Heq. apply elem_of_dom. eauto.
Qed.

Lemma cacheKeyV2_inj t1 t2 : cacheKeyV2 t1 = cacheKeyV2 t2 -> t1 = t2.
Proof. unfold cacheKeyV2, prefixConnection. cbn. intros Heq. injection Heq as Heq. exact Heq. Qed.

Lemma cacheKeyV1_inj t1 t2 : cacheKeyV1 t1 = cacheKeyV1 t2 -> t1 = t2.
Proof. unfold cacheKeyV1, prefixConnection. cbn. intros Heq. injection Heq as Heq. exact Heq. Qed.

(** Splitting a run of GetTenantConnectionV2 into its lookup and its build. *)
Lemma GetTenantConnectionV2_split env opts w out w' :
  GetTenantConnectionV2 env opts w = (out, w') ->
  (Tenant opts = "" /\ out = Returns (Err (fmt_Errorf "tenant name is required")) /\ w' = w) \/
  (Tenant opts ≠ "" /\
   ((exists p, lookupCached env (resolveDefaults opts) w = (Returns (Some p), w') /\
               out = Returns (Ok p)) \/
    (exists w0, lookupCached env (resolveDefaults opts) w = (Returns None, w0) /\
                buildPool env (resolveDefaults opts) w0 = (out, w')) \/
    (exists out0, lookupCached env (resolveDefaults opts) w = (out0, w') /\
       match out0, out with
       | Panics m, Panics m' => m = m'
       | Fatal m, Fatal m' => m = m'
       | Blocks, Blocks => True
       | _, _ => False
       end))).
Proof.
  unfold GetTenantConnectionV2.
  destruct (String.eqb_spec (Tenant opts) "") as [Hempty | Hname].
  - intros [= <- <-]. left. auto.
  - cbv zeta. unfold mbind, Go_mbind, Go_bind. intros Hrun.
    right. split; [exact Hname |]. revert Hrun.
    destruct (lookupCached env (resolveDefaults opts) w) as [[[p |] | m | m |] w0] eqn:Hlook.
    + intros [= <- <-]. left. eauto.
    + intros Hbuild. right. left. eauto.
    + intros [= <- <-]. right. right. exists (Panics m). auto.
    + intros [= <- <-]. right. right. exists (Fatal m). auto.
    + intros [= <- <-]. right. right. exists Blocks. auto.
Qed.



(** X6: on a cache miss a successful GetTenantConnectionV2 hands out a
    new pool object (its address was not in use), open, with the handle
    it just opened, the tenant key as search path and the resolved
    options; the pools that existed before are untouched. *)
Theorem GetTenantConnectionV2_builds_fresh_pool env opts w p w' :
  mutexHeld w = false ->
  Connections w !! cacheKeyV2 (Tenant opts) = None ->
  GetTenantConnectionV2 env opts w = (Returns (Ok p), w') ->
  heap w !! p = None /\
  (exists now,
     heap w' !! p = Some {| DB := Some (nextDB w); SearchPath := Tenant opts;
                            Options := resolveDefaults opts; createdAt := now;
                            closed := false |}) /\
  (forall q obj, heap w !! q = Some obj -> heap w' !! q = Some obj) /\
  nextDB w' = S (nextDB w).
Proof.
  intros Hfree Hmiss Hrun.
  apply GetTenantConnectionV2_split in Hrun as [(_ & [=] & _) | (Hname & Hrun)].
  destruct Hrun as [(p0 & Hlook & [= <-]) | [(w0 & Hlook & Hbuild) | (out0 & _ & Hbad)]].
  - apply lookupCached_hit in Hlook as (_ & Hkey & _).
    rewrite resolveDefaults_Tenant in Hkey. congruence.
  - apply (lookupCached_fallthrough _ _ _ _ Hfree) in Hlook as (_ & Hc & Hh & Hn & Hm).
    apply (buildPool_success _ _ _ _ _ Hm) in Hbuild as (Hp & (now & Hheap) & _ & Hn' & _).
    rewrite Hh in Hp, Hheap. rewrite Hn in Hheap, Hn'.
    rewrite resolveDefaults_Tenant in Hheap.
    assert (Hfresh : heap w !! p = None).
    { subst p. apply not_elem_of_dom. apply is_fresh. }
    repeat split.
    + exact Hfresh.
    + exists now. rewrite Hheap. apply lookup_insert_eq.
    + intros q obj Hq. rewrite Hheap. rewrite lookup_insert_ne; [exact Hq | congruence].
    + exact Hn'.
  - destruct out0; contradiction.
Qed.

Lemma GetTenantConnectionV2_builds_fresh_pool_witness :
  heap emptyWorld !! 0%nat = None /\ nextDB builtWorld = S (nextDB emptyWorld).
Proof.
  destruct (GetTenantConnectionV2_builds_fresh_pool (quietEnv [catalogRow "t"])
              (onlyTenant "t") emptyWorld 0%nat builtWorld)
    as (Hfresh & _ & _ & Hnext).
  - reflexivity.
  - reflexivity.
  - vm_compute. reflexivity.
  - split; [exact Hfresh | exact Hnext].
Defined.



(** X8: a call of GetTenantConnectionV2, whatever its outcome, reads
    and writes the cache only under its own tenant's v2 key: every other
    key, and so the cached pool of every other tenant, is left as it
    was, and no existing pool object is modified. *)
Theorem GetTenantConnectionV2_touches_only_its_key env opts w out w' :
  GetTenantConnectionV2 env opts w = (out, w') ->
  (forall key, key ≠ cacheKeyV2 (Tenant opts) -> Connections w' !! key = Connections w !! key) /\
  (forall tenant, tenant ≠ Tenant opts ->
     Connections w' !! cacheKeyV2 tenant = Connections w !! cacheKeyV2 tenant) /\
  (forall q obj, heap w !! q = Some obj -> heap w' !! q = Some obj).
Proof.
  intros Hrun.
  assert (Hframe :
    (forall key, key ≠ cacheKeyV2 (Tenant opts) -> Connections w' !! key = Connections w !! key) /\
    (forall q obj, heap w !! q = Some obj -> heap w' !! q = Some obj)).
  { apply GetTenantConnectionV2_split in Hrun as [(_ & _ & ->) | (Hname & Hrun)]; [auto |].
    destruct Hrun as [(p0 & Hlook & _) | [(w0 & Hlook & Hbuild) | (out0 & Hlook & _)]].
    - apply lookupCached_effect in Hlook as (Hh & _ & Hc).
      rewrite resolveDefaults_Tenant in Hc. rewrite Hh. split; [| auto].
      intros key Hkey. destruct Hc as [-> | ->]; [reflexivity |].
      apply lookup_delete_ne. congruence.
    - apply lookupCached_effect in Hlook as (Hh & _ & Hc).
      apply buildPool_effect in Hbuild as (Hh' & Hc').
      rewrite resolveDefaults_Tenant in Hc, Hc'. rewrite Hh in Hh'. split.
      + intros key Hkey.
        assert (H0 : Connections w0 !! key = Connections w !! key).
        { destruct Hc as [-> | ->]; [reflexivity |]. apply lookup_delete_ne. congruence. }
        destruct Hc' as [-> | [p ->]]; [exact H0 |].
        rewrite lookup_insert_ne by congruence. exact H0.
      + intros q obj Hq. destruct Hh' as [-> | [obj' ->]]; [exact Hq |].
        rewrite lookup_insert_ne; [exact Hq |]. exact (fresh_not_allocated _ _ _ Hq).
    - apply lookupCached_effect in Hlook as (Hh & _ & Hc).
      rewrite resolveDefaults_Tenant in Hc. rewrite Hh. split; [| auto].
      intros key Hkey. destruct Hc as [-> | ->]; [reflexivity |].
      apply lookup_delete_ne. congruence. }
  destruct Hframe as [Hkeys Hpools]. repeat split; [exact Hkeys | | exact Hpools].
  intros tenant Hne. apply Hkeys. intros Heq. apply Hne. exact (cacheKeyV2_inj _ _ Heq).
Qed.

Lemma GetTenantConnectionV2_touches_only_its_key_witness :
  Connections (snd (GetTenantConnectionV2 (quietEnv [catalogRow "t"]) (onlyTenant "t")
                      (cachedWorld "u" (Some 0%nat) false))) !! cacheKeyV2 "u" =
  Connections (cachedWorld "u" (Some 0%nat) false) !! cacheKeyV2 "u".
Proof.
  destruct (GetTenantConnectionV2_touches_only_its_key (quietEnv [catalogRow "t"])
              (onlyTenant "t") (cachedWorld "u" (Some 0%nat) false)
              (fst (GetTenantConnectionV2 (quietEnv [catalogRow "t"]) (onlyTenant "t")
                      (cachedWorld "u" (Some 0%nat) false)))
              (snd (GetTenantConnectionV2 (quietEnv [catalogRow "t"]) (onlyTenant "t")
                      (cachedWorld "u" (Some 0%nat) false))))
    as (_ & Hother & _).
  - apply run_is_pair.
  - apply Hother. discriminate.
Defined.

Lemma error_eqb_refl e : error_eqb e e = true.
Proof.
  induction e as [m | m | m e IH]; cbn; rewrite ?String.eqb_refl; auto.
Qed.

Lemma errors_Is_refl e : errors_Is e e = true.
Proof. destruct e; cbn [errors_Is]; rewrite error_eqb_refl; reflexivity. Qed.

Lemma errors_Is_wrapped msg cause : errors_Is (fmt_Errorf_w msg cause) cause = true.
Proof. cbn [errors_Is]. rewrite errors_Is_refl. apply orb_true_r. Qed.

(** X9: every error GetTenantConnectionV2 returns is either the
    validation error for an empty tenant, or wraps its cause so that
    errors.Is finds it: ErrRecordNotFound, or the error the catalog
    store, sql.Open, a setup ping or a setup statement gave. *)
Theorem GetTenantConnectionV2_errors_wrap_their_cause env opts w e w' :
  GetTenantConnectionV2 env opts w = (Returns (Err e), w') ->
  (Tenant opts = "" /\ e = fmt_Errorf "tenant name is required") \/
  (Tenant opts ≠ "" /\
   exists msg cause, e = fmt_Errorf_w msg cause /\ errors_Is e cause = true /\
     (cause = ErrRecordNotFound \/
      (exists tr, catalogFailure env tr (Tenant opts) = Some cause) \/
      (exists tr dsn, openFailure env tr dsn = Some cause) \/
      (exists tr h, pingResult env tr h SetupCtx = Some cause) \/
      (exists tr h stmt, execResult env tr h stmt = Some cause))).
Proof.
  intros Hrun.
  apply GetTenantConnectionV2_split in Hrun as [(Hempty & [= ->] & _) | (Hname & Hrun)];
    [left; auto |].
  right. split; [exact Hname |].
  destruct Hrun as [(p0 & _ & [=]) | [(w0 & _ & Hbuild) | (out0 & _ & Hbad)]];
    [| destruct out0; contradiction].
  assert (Hcause : exists msg cause, e = fmt_Errorf_w msg cause /\
     (cause = ErrRecordNotFound \/
      (exists tr, catalogFailure env tr (Tenant opts) = Some cause) \/
      (exists tr dsn, openFailure env tr dsn = Some cause) \/
      (exists tr h, pingResult env tr h SetupCtx = Some cause) \/
      (exists tr h stmt, execResult env tr h stmt = Some cause))).
  { rewrite <- (resolveDefaults_Tenant opts).
    revert Hbuild. generalize (resolveDefaults opts). clear. intros opts.
    run_build. all_cases.
    all: intros; simplify_eq /=; do 2 eexists; split; [reflexivity |]; eauto 10. }
  destruct Hcause as (msg & cause & -> & Horigin).
  exists msg, cause. split; [reflexivity |]. split; [apply errors_Is_wrapped | exact Horigin].
Qed.

Lemma GetTenantConnectionV2_errors_wrap_their_cause_witness :
  exists msg cause,
    fmt_Errorf_w "failed to set search_path for tenant t" bad_connection =
      fmt_Errorf_w msg cause /\
    errors_Is (fmt_Errorf_w "failed to set search_path for tenant t" bad_connection) cause = true.
Proof.
  destruct (GetTenantConnectionV2_errors_wrap_their_cause (execFailEnv [catalogRow "t"])
              (onlyTenant "t") emptyWorld
              (fmt_Errorf_w "failed to set search_path for tenant t" bad_connection)
              (snd (GetTenantConnectionV2 (execFailEnv [catalogRow "t"]) (onlyTenant "t")
                      emptyWorld)))
    as [[Hempty _] | (_ & msg & cause & Heq & His & _)].
  - vm_compute. reflexivity.
  - discriminate Hempty.
  - exists msg, cause. split; [exact Heq | exact His].
Defined.

(** ** tenant_con_v2.go: Close *)

(** X12: Close on a pool changes nothing but that pool's closed flag
    and the cache entry under that pool's own key: every other pool
    object and every other cache key is as before, and no handle is
    opened. *)
Theorem Close_touches_only_its_pool env p obj w out w' :
  heap w !! p = Some obj ->
  Close env (Some p) w = (out, w') ->
  (forall q, q ≠ p -> heap w' !! q = heap w !! q) /\
  (heap w' !! p = Some obj \/ heap w' !! p = Some (set_closed true obj)) /\
  (forall key, key ≠ cacheKeyV2 (Tenant (Options obj)) ->
     Connections w' !! key = Connections w !! key) /\
  nextDB w' = nextDB w.
Proof.
  intros Hobj. run_close. rewrite Hobj. all_cases.
  all: intros; simplify_eq /=; repeat split; auto.
  all: try (intros q Hq; apply lookup_alter_ne; congruence).
  all: try (right; rewrite lookup_alter_eq, Hobj; reflexivity).
  all: try (intros key Hkey; apply lookup_delete_ne; congruence).
Qed.

Lemma Close_touches_only_its_pool_witness :
  (heap (snd (Close (quietEnv []) (Some 0%nat) (cachedWorld "t" (Some 0%nat) false)))
     !! 0%nat = Some (poolOf "t" (Some 0%nat) false) \/
   heap (snd (Close (quietEnv []) (Some 0%nat) (cachedWorld "t" (Some 0%nat) false)))
     !! 0%nat = Some (set_closed true (poolOf "t" (Some 0%nat) false))) /\
  nextDB (snd (Close (quietEnv []) (Some 0%nat) (cachedWorld "t" (Some 0%nat) false))) =
  nextDB (cachedWorld "t" (Some 0%nat) false).
Proof.
  destruct (Close_touches_only_its_pool (quietEnv []) 0%nat (poolOf "t" (Some 0%nat) false)
              (cachedWorld "t" (Some 0%nat) false)
              (fst (Close (quietEnv []) (Some 0%nat) (cachedWorld "t" (Some 0%nat) false)))
              (snd (Close (quietEnv []) (Some 0%nat) (cachedWorld "t" (Some 0%nat) false))))
    as (_ & Hpool & _ & Hnext).
  - reflexivity.
  - apply run_is_pair.
  - split; [exact Hpool | exact Hnext].
Defined.

(** X13: after Close on an open, cache-managed pool (global lock
    free), Close has returned what the handle's close returned, the
    pool reports unhealthy and gives no handle, nothing is cached under
    its tenant's key, and no later GetTenantConnectionV2 for that tenant
    hands out the closed pool again. *)
Theorem Close_retires_the_pool env p obj h w out w1 :
  heap w !! p = Some obj ->
  closed obj = false ->
  DB obj = Some h ->
  CacheEnabled (Options obj) = true ->
  mutexHeld w = false ->
  Close env (Some p) w = (out, w1) ->
  (exists tr, out = Returns (closeResult env tr h)) /\
  IsHealthy env (Some p) w1 = (Returns false, w1) /\
  GetDB (Some p) w1 = (Returns None, w1) /\
  Connections w1 !! cacheKeyV2 (Tenant (Options obj)) = None /\
  (forall opts p' w2,
     Tenant opts = Tenant (Options obj) ->
     GetTenantConnectionV2 env opts w1 = (Returns (Ok p'), w2) ->
     p' ≠ p).
Proof.
  intros Hobj Hopen Hdb Hflag Hfree Hrun.
  assert (Hw1 : (exists tr, out = Returns (closeResult env tr h)) /\
                heap w1 !! p = Some (set_closed true obj) /\
                Connections w1 !! cacheKeyV2 (Tenant (Options obj)) = None /\
                mutexHeld w1 = false).
  { revert Hrun. run_close. all_cases.
    all: intros; simplify_eq /=.
    all: try match goal with
             | H : closed _ || isNil (DB _) = true |- _ =>
                 rewrite Hopen, Hdb in H; discriminate
             end.
    all: repeat split; eauto.
    - rewrite lookup_alter_eq.
      match goal with H : heap _ !! _ = Some _ |- _ => rewrite H end. reflexivity.
    - apply lookup_delete_eq. }
  destruct Hw1 as (Hout & Hp & Hkey & Hfree1).
  split; [exact Hout |]. split; [| split; [| split; [exact Hkey |]]].
  - unfold IsHealthy, load. go_unfold. rewrite Hp. reflexivity.
  - unfold GetDB, load. go_unfold. rewrite Hp. reflexivity.
  - intros opts p' w2 Htenant Hget.
    apply GetTenantConnectionV2_split in Hget as [(_ & [=] & _) | (Hname & Hget)].
    destruct Hget as [(p0 & Hlook & [= <-]) | [(w0 & Hlook & Hbuild) | (out0 & _ & Hbad)]].
    + apply lookupCached_hit in Hlook as (_ & Hhit & _).
      rewrite resolveDefaults_Tenant, Htenant in Hhit. congruence.
    + apply (lookupCached_fallthrough _ _ _ _ Hfree1) in Hlook as (_ & _ & Hh & _ & Hm).
      apply (buildPool_success _ _ _ _ _ Hm) in Hbuild as (-> & _).
      rewrite Hh. exact (fresh_not_allocated _ _ _ Hp).
    + destruct out0; contradiction.
Qed.

Lemma Close_retires_the_pool_witness :
  IsHealthy (quietEnv []) (Some 0%nat)
    (snd (Close (quietEnv []) (Some 0%nat) builtWorld)) =
    (Returns false, snd (Close (quietEnv []) (Some 0%nat) builtWorld)) /\
  Connections (snd (Close (quietEnv []) (Some 0%nat) builtWorld)) !! cacheKeyV2 "t" = None.
Proof.
  destruct (Close_retires_the_pool (quietEnv []) 0%nat
              {| DB := Some 0%nat; SearchPath := "t";
                 Options := resolveDefaults (onlyTenant "t"); createdAt := 0;
                 closed := false |}
              0%nat builtWorld
              (fst (Close (quietEnv []) (Some 0%nat) builtWorld))
              (snd (Close (quietEnv []) (Some 0%nat) builtWorld)))
    as (_ & Hhealthy & _ & Hkey & _).
  - vm_compute. reflexivity.
  - reflexivity.
  - reflexivity.
  - reflexivity.
  - vm_compute. reflexivity.
  - apply run_is_pair.
  - split; [exact Hhealthy | exact Hkey].
Defined.

(** X14: opening a pool on a cache miss and closing it again is a
    round trip for the cache: Close returns, the cache is exactly what
    it was before the pool was opened, the pool is marked closed, the
    handle opened for it has been closed and the lock is free. *)
Theorem open_then_Close_restores_cache env opts w p w1 out w2 :
  mutexHeld w = false ->
  Connections w !! cacheKeyV2 (Tenant opts) = None ->
  GetTenantConnectionV2 env opts w = (Returns (Ok p), w1) ->
  Close env (Some p) w1 = (out, w2) ->
  (exists err, out = Returns err) /\
  Connections w2 = Connections w /\
  closed_flag w2 p = Some true /\
  In (EvDBClose (nextDB w)) (trace w2) /\
  mutexHeld w2 = false.
Proof.
  intros Hfree Hmiss Hget Hclose.
  apply GetTenantConnectionV2_split in Hget as [(_ & [=] & _) | (Hname & Hget)].
  destruct Hget as [(p0 & Hlook & [= <-]) | [(w0 & Hlook & Hbuild) | (out0 & _ & Hbad)]].
  - apply lookupCached_hit in Hlook as (_ & Hhit & _).
    rewrite resolveDefaults_Tenant in Hhit. congruence.
  - apply (lookupCached_fallthrough _ _ _ _ Hfree) in Hlook as (_ & Hc & Hh & Hn & Hm).
    apply (buildPool_success _ _ _ _ _ Hm) in Hbuild as (Hp & (now & Hheap) & Hconn & _ & Hm').
    rewrite resolveDefaults_Tenant in Hheap, Hconn. rewrite Hn in Hheap. rewrite Hc in Hconn.
    assert (Hobj : heap w1 !! p = Some {| DB := Some (nextDB w); SearchPath := Tenant opts;
                     Options := resolveDefaults opts; createdAt := now; closed := false |})
      by (rewrite Hheap; apply lookup_insert_eq).
    revert Hclose. run_close. all_cases.
    all: intros; simplify_eq /=; repeat split; eauto.
    all: try (unfold closed_flag; cbn; rewrite lookup_alter_eq;
              match goal with H : heap _ !! _ = Some _ |- _ => rewrite H end; reflexivity).
    all: rewrite ?resolveDefaults_Tenant.
    all: first [ exact Hconn | rewrite Hconn; apply delete_insert_id; exact Hmiss ].
  - destruct out0; contradiction.
Qed.

Lemma open_then_Close_restores_cache_witness :
  Connections (snd (Close (quietEnv []) (Some 0%nat) builtWorld)) = Connections emptyWorld /\
  closed_flag (snd (Close (quietEnv []) (Some 0%nat) builtWorld)) 0%nat = Some true.
Proof.
  destruct (open_then_Close_restores_cache (quietEnv [catalogRow "t"]) (onlyTenant "t")
              emptyWorld 0%nat builtWorld
              (fst (Close (quietEnv [catalogRow "t"]) (Some 0%nat) builtWorld))
              (snd (Close (quietEnv [catalogRow "t"]) (Some 0%nat) builtWorld)))
    as (_ & Hcache & Hflag & _).
  - reflexivity.
  - reflexivity.
  - vm_compute. reflexivity.
  - apply run_is_pair.
  - split; [exact Hcache | exact Hflag].
Defined.

(** ** tenant_con.go: the first generation *)

(** X15: the first generation takes the global lock once and its
    deferred Unlock releases it on every path: when it returns a
    connection, when it returns an error, and when the type assertion
    on the cached value panics.  It never ends in the fatal error. *)
Theorem GetTenantConnection_lock_discipline env tenant w out w' :
  mutexHeld w = false ->
  GetTenantConnection env tenant w = (out, w') \/
  GetTenantConnection_shared env tenant w = (out, w') ->
  not_fatal out /\ disciplined w w'.
Proof.
  intros Hfree. unfold disciplined. run_v1.
  intros [Hrun | Hrun]; revert Hrun.
  all: all_cases.
  all: intros; simplify_eq /=; (split; [exact I |]); give_prefix.
  all: repeat split; try reflexivity; assumption.
Qed.

Lemma GetTenantConnection_lock_discipline_witness :
  disciplined (cachedWorld "acme" (Some 0%nat) false)
    (snd (GetTenantConnection (quietEnv []) "v2-acme" (cachedWorld "acme" (Some 0%nat) false))).
Proof.
  destruct (GetTenantConnection_lock_discipline (quietEnv []) "v2-acme"
              (cachedWorld "acme" (Some 0%nat) false)
              (fst (GetTenantConnection (quietEnv []) "v2-acme"
                      (cachedWorld "acme" (Some 0%nat) false)))
              (snd (GetTenantConnection (quietEnv []) "v2-acme"
                      (cachedWorld "acme" (Some 0%nat) false))))
    as [_ Hdisc].
  - reflexivity.
  - left. apply run_is_pair.
  - exact Hdisc.
Defined.



(** X17: an error returned by the first generation is never wrapped:
    it is ErrRecordNotFound or the very error the catalog store,
    sql.Open or the search_path statement gave; and on an error nothing
    has been cached. *)
Theorem GetTenantConnection_errors_are_verbatim env tenant w e w' :
  GetTenantConnection env tenant w = (Returns (Err e), w') ->
  Connections w' = Connections w /\
  (e = ErrRecordNotFound \/
   (exists tr, catalogFailure env tr tenant = Some e) \/
   (exists tr dsn, openFailure env tr dsn = Some e) \/
   (exists tr h, execResult env tr h ("SET search_path TO " +:+ tenant) = Some e)).
Proof.
  run_v1. all_cases.
  all: intros; simplify_eq /=; split; eauto 10.
Qed.

Lemma GetTenantConnection_errors_are_verbatim_witness :
  Connections (snd (GetTenantConnection (quietEnv []) "ghost" emptyWorld)) =
  Connections emptyWorld.
Proof.
  destruct (GetTenantConnection_errors_are_verbatim (quietEnv []) "ghost" emptyWorld
              ErrRecordNotFound (snd (GetTenantConnection (quietEnv []) "ghost" emptyWorld)))
    as [Hcache _].
  - vm_compute. reflexivity.
  - exact Hcache.
Defined.

(** X18: a call of the first generation touches only the cache entry
    under its own tenant's v1 key and never any pool object of the
    second generation. *)
Theorem GetTenantConnection_touches_only_its_key env tenant w out w' :
  GetTenantConnection env tenant w = (out, w') ->
  (forall key, key ≠ cacheKeyV1 tenant -> Connections w' !! key = Connections w !! key) /\
  heap w' = heap w.
Proof.
  run_v1. all_cases.
  all: intros; simplify_eq /=; split; auto.
  intros key Hkey. apply lookup_insert_ne. congruence.
Qed.

Lemma GetTenantConnection_touches_only_its_key_witness :
  heap (snd (GetTenantConnection (quietEnv [catalogRow "t"]) "t"
               (cachedWorld "t" (Some 0%nat) false))) =
  heap (cachedWorld "t" (Some 0%nat) false).
Proof.
  destruct (GetTenantConnection_touches_only_its_key (quietEnv [catalogRow "t"]) "t"
              (cachedWorld "t" (Some 0%nat) false)
              (fst (GetTenantConnection (quietEnv [catalogRow "t"]) "t"
                      (cachedWorld "t" (Some 0%nat) false)))
              (snd (GetTenantConnection (quietEnv [catalogRow "t"]) "t"
                      (cachedWorld "t" (Some 0%nat) false))))
    as [_ Hheap].
  - apply run_is_pair.
  - exact Hheap.
Defined.

(** ** tenant_con_v2.go: the factory adapter *)

Section AdapterProperties.

Variable env : Env.
Context {tname : Type} `{EqDecision tname}.
Variable carrier : tname -> Type.
Variable zero : forall t, carrier t.

Lemma assert_SqlcFactory_same (t : tname) (factory : SqlcFactory carrier t) :
  assert_SqlcFactory carrier t (AnyFactory carrier t factory) = Some factory.
Proof.
  unfold assert_SqlcFactory. cbn. destruct (decide (t = t)) as [e | Hne]; [| congruence].
  assert (He : e = eq_refl) by apply proof_irrel. rewrite He. reflexivity.
Qed.

Lemma assert_SqlcFactory_other (t t' : tname) (factory : SqlcFactory carrier t') :
  t' ≠ t -> assert_SqlcFactory carrier t (AnyFactory carrier t' factory) = None.
Proof.
  intros Hne. unfold assert_SqlcFactory. cbn.
  destruct (decide (t' = t)); [contradiction | reflexivity].
Qed.

(** X19: NewSqlcWithTenantConnection returns either a pool and no
    error, or no pool, the zero value and an error, never both or
    neither.  On success the factory was called once, on the handle of
    an open pool that GetTenantConnectionV2 returned.  On failure the
    factory was not called: the error is GetTenantConnectionV2's own,
    unchanged, or "failed to get valid database connection" when the
    pool it got gives no handle. *)
Theorem NewSqlcWithTenantConnection_result (t : tname)
    (factory : SqlcFactory carrier t) opts w q tc err w' :
  NewSqlcWithTenantConnection env carrier zero factory opts w = (Returns (q, tc, err), w') ->
  (exists p w1 obj h,
     GetTenantConnectionV2 env opts w = (Returns (Ok p), w1) /\
     heap w1 !! p = Some obj /\ closed obj = false /\ DB obj = Some h /\
     call_factory carrier factory h w1 = (Returns q, w') /\
     tc = Some p /\ err = None) \/
  (q = zero t /\ tc = None /\
   ((exists e, GetTenantConnectionV2 env opts w = (Returns (Err e), w') /\ err = Some e) \/
    (exists p, GetTenantConnectionV2 env opts w = (Returns (Ok p), w') /\
       GetDB (Some p) w' = (Returns None, w') /\
       err = Some (fmt_Errorf "failed to get valid database connection")))).
Proof.
  unfold NewSqlcWithTenantConnection. unfold mbind at 1. unfold Go_mbind, Go_bind.
  destruct (GetTenantConnectionV2 env opts w) as [[[p | e] | | |] w1] eqn:Hget;
    try discriminate.
  - unfold GetDB, load. go_unfold.
    destruct (heap w1 !! p) as [obj |] eqn:Hobj; [| discriminate].
    destruct (closed obj) eqn:Hclosed; cbn.
    + intros [= <- <- <- <-]. right. repeat split. right. exists p.
      rewrite Hobj, Hclosed. auto.
    + destruct (DB obj) as [h |] eqn:Hdb; cbn.
      * destruct (call_factory carrier factory h w1) as [[q0 | | |] w2] eqn:Hf;
          try discriminate.
        intros [= <- <- <- <-]. left. exists p, w1, obj, h. auto 10.
      * intros [= <- <- <- <-]. right. repeat split. right. exists p.
        rewrite Hobj, Hclosed, Hdb. auto.
  - cbn. intros [= <- <- <- <-]. right. repeat split. left. eauto.
Qed.

(** X20: the context variants need a tenant: when the context holds no
    value under TenantContextKey, a value that is not a string, or the
    empty string, both return the zero value, no pool and "tenant not
    found in context" without doing anything else (whatever the global
    factory is). *)
Theorem context_variants_need_a_tenant (t : tname) (factory : SqlcFactory carrier t)
    (globalFactory : option (any_factory carrier)) (ctx : Context) w :
  (forall tenant, ctx = Some (AnyString tenant) -> tenant = "") ->
  GetConnectionFromContext env carrier zero ctx factory w =
    (Returns (zero t, None, Some tenant_not_in_context), w) /\
  GetConnectionFromContextSimple env carrier zero t globalFactory ctx w =
    (Returns (zero t, None, Some tenant_not_in_context), w).
Proof.
  intros Hctx. unfold GetConnectionFromContext, GetConnectionFromContextSimple.
  destruct ctx as [[tenant |] |]; try (split; reflexivity).
  rewrite (Hctx tenant eq_refl). split; reflexivity.
Qed.

(** X21: GetConnectionSimple[T] with no global factory registered, or
    with one registered for another type, returns the zero value, no
    pool and an error ("global factory not set ..." or "global factory
    type mismatch") without calling the factory or touching the cache,
    the catalog or the database. *)
Theorem GetConnectionSimple_needs_matching_factory (t : tname)
    (globalFactory : option (any_factory carrier)) tenant w :
  (forall g, globalFactory = Some g -> dyn_type carrier g ≠ t) ->
  exists msg,
    GetConnectionSimple env carrier zero t globalFactory tenant w =
      (Returns (zero t, None, Some (fmt_Errorf msg)), w) /\
    msg = match globalFactory with
          | Some _ => "global factory type mismatch"
          | None => "global factory not set - use SetGlobalFactory first"
          end.
Proof.
  intros Hg. unfold GetConnectionSimple. destruct globalFactory as [[t' f] |].
  - rewrite assert_SqlcFactory_other by exact (Hg _ eq_refl). eauto.
  - eauto.
Qed.

(** X22: after SetGlobalFactory[T](f), GetConnectionSimple[T] behaves
    exactly as GetConnection with f; a second registration replaces the
    first (the last one wins). *)
Theorem SetGlobalFactory_then_GetConnectionSimple (t t0 : tname)
    (factory : SqlcFactory carrier t) (factory0 : SqlcFactory carrier t0)
    (globalFactory : option (any_factory carrier)) tenant :
  GetConnectionSimple env carrier zero t
    (SetGlobalFactory carrier t factory globalFactory) tenant =
    GetConnection env carrier zero tenant factory /\
  GetConnectionSimple env carrier zero t
    (SetGlobalFactory carrier t factory
       (SetGlobalFactory carrier t0 factory0 globalFactory)) tenant =
    GetConnection env carrier zero tenant factory.
Proof.
  unfold GetConnectionSimple, SetGlobalFactory.
  rewrite assert_SqlcFactory_same. split; reflexivity.
Qed.

End AdapterProperties.

Lemma NewSqlcWithTenantConnection_result_witness :
  exists p w1 obj h,
    GetTenantConnectionV2 (quietEnv [catalogRow "t"]) (onlyTenant "t") emptyWorld =
      (Returns (Ok p), w1) /\
    heap w1 !! p = Some obj /\ closed obj = false /\ DB obj = Some h /\
    call_factory sqlc_carrier queriesFactory h w1 =
      (Returns (Some (NewQueries (Some 0%nat))), builtWorld).
Proof.
  destruct (NewSqlcWithTenantConnection_result (quietEnv [catalogRow "t"]) sqlc_carrier
              sqlc_zero TQueries queriesFactory (onlyTenant "t") emptyWorld
              (Some (NewQueries (Some 0%nat))) (Some 0%nat) None builtWorld)
    as [(p & w1 & obj & h & Hget & Hobj & Hopen & Hdb & Hcall & _) | (_ & Hnone & _)].
  - vm_compute. reflexivity.
  - exists p, w1, obj, h. auto.
  - discriminate Hnone.
Defined.

Lemma context_variants_need_a_tenant_witness :
  GetConnectionFromContext (quietEnv [catalogRow "t"]) sqlc_carrier sqlc_zero
    (Some (AnyString "")) queriesFactory emptyWorld =
    (Returns (sqlc_zero TQueries, None, Some tenant_not_in_context), emptyWorld).
Proof.
  refine (proj1 (context_variants_need_a_tenant (quietEnv [catalogRow "t"]) sqlc_carrier
                   sqlc_zero TQueries queriesFactory None (Some (AnyString "")) emptyWorld _)).
  intros tenant Hctx. injection Hctx as <-. reflexivity.
Defined.

Lemma GetConnectionSimple_needs_matching_factory_witness :
  exists msg,
    GetConnectionSimple (quietEnv [catalogRow "t"]) sqlc_carrier sqlc_zero TQueries
      (Some (AnyFactory sqlc_carrier TDbQueries dbQueriesFactory)) "t" emptyWorld =
      (Returns (sqlc_zero TQueries, None, Some (fmt_Errorf msg)), emptyWorld) /\
    msg = "global factory type mismatch".
Proof.
  refine (GetConnectionSimple_needs_matching_factory (quietEnv [catalogRow "t"]) sqlc_carrier
            sqlc_zero TQueries (Some (AnyFactory sqlc_carrier TDbQueries dbQueriesFactory))
            "t" emptyWorld _).
  intros g Hg. injection Hg as <-. discriminate.
Defined.

(** ** catalog_con.go: GetCatalogConnection *)

(** X23: GetCatalogConnection connects at most once.  When a call has
    returned, [once] is done and [dbCatalog] is the handle returned;
    every later call, whatever URL it is given, returns that same handle
    and does nothing else.  A first call opens the URL with
    "?sslmode=disable" appended. *)
Theorem GetCatalogConnection_connects_once env url url' vars w h vars1 w1 :
  GetCatalogConnection env url vars w = (Returns (h, vars1), w1) ->
  once_done vars1 = true /\
  dbCatalog vars1 = h /\
  GetCatalogConnection env url' vars1 w1 = (Returns (h, vars1), w1) /\
  (once_done vars = true -> h = dbCatalog vars /\ vars1 = vars /\ w1 = w) /\
  (once_done vars = false ->
     h = Some (nextDB w) /\
     trace w1 = EvSqlOpen (url +:+ "?sslmode=disable") (nextDB w) ::
                EvPrint ("vai conectar em:  " +:+ url) :: trace w).
Proof.
  unfold GetCatalogConnection at 1. unfold Connect, sql_Open. go_unfold.
  all_cases.
  all: intros; simplify_eq /=.
  - unfold GetCatalogConnection.
    match goal with H : once_done _ = true |- _ => rewrite H end.
    repeat split; auto; discriminate.
  - repeat split; auto; discriminate.
Qed.

Lemma GetCatalogConnection_connects_once_witness :
  GetCatalogConnection (quietEnv []) "postgres://other"
    {| once_done := true; dbCatalog := Some 0%nat |}
    (snd (GetCatalogConnection (quietEnv []) "postgres://catalog" freshCatalogVars emptyWorld)) =
    (Returns (Some 0%nat, {| once_done := true; dbCatalog := Some 0%nat |}),
     snd (GetCatalogConnection (quietEnv []) "postgres://catalog" freshCatalogVars emptyWorld)).
Proof.
  destruct (GetCatalogConnection_connects_once (quietEnv []) "postgres://catalog"
              "postgres://other" freshCatalogVars emptyWorld (Some 0%nat)
              {| once_done := true; dbCatalog := Some 0%nat |}
              (snd (GetCatalogConnection (quietEnv []) "postgres://catalog" freshCatalogVars
                      emptyWorld)))
    as (_ & _ & Hagain & _).
  - vm_compute. reflexivity.
  - exact Hagain.
Defined.

(** ** tenant_con_v2.go: logged operations and the health check *)

(** X24: on an open pool ExecWithLog, QueryWithLog and QueryRowWithLog
    call exactly one logger, the pool's own or else the package default,
    with the statement and its arguments, and only then run the
    statement on the pool's handle; the first two add their diagnostic
    line afterwards and hand on the database's result.  On a closed pool
    or a pool without handle nothing is logged and nothing is run. *)
Theorem logged_operations_log_then_execute env p obj query args w :
  heap w !! p = Some obj ->
  match closed obj, DB obj with
  | false, Some h =>
      let logged := record (EvLogger (logger_of obj) query args) w in
      ExecWithLog env (Some p) query args w =
        (Returns (match execResult env (trace logged) h query with
                  | Some e => Err e
                  | None => Ok tt
                  end),
         record (EvPrint ("[TenantExec][" +:+ SearchPath obj +:+ "]"))
                (record (EvExec h CallerCtx query) logged)) /\
      QueryWithLog env (Some p) query args w =
        (Returns (queryResult env (trace logged) h query),
         record (EvPrint ("[TenantQuery][" +:+ SearchPath obj +:+ "]"))
                (record (EvQuery h query) logged)) /\
      QueryRowWithLog env (Some p) query args w =
        (Returns (queryRowResult env (trace logged) h query),
         record (EvQueryRow h query) logged)
  | _, _ =>
      ExecWithLog env (Some p) query args w =
        (Returns (Err (fmt_Errorf "connection is closed or invalid")), w) /\
      QueryWithLog env (Some p) query args w =
        (Returns (Err (fmt_Errorf "connection is closed or invalid")), w) /\
      QueryRowWithLog env (Some p) query args w = (Returns zeroRow, w)
  end.
Proof.
  intros Hobj.
  unfold ExecWithLog, QueryWithLog, QueryRowWithLog, GetDB, receiver, load, call_logger,
    ExecContext, QueryContext, QueryRowContext, logger_of.
  go_unfold. rewrite Hobj.
  destruct (closed obj), (DB obj) as [h |]; cbn; try (repeat split; reflexivity).
  rewrite Hobj. cbn.
  destruct (QueryLogger (Options obj)) as [l |]; cbn; repeat split;
    try reflexivity; destruct (execResult _ _ _ _); reflexivity.
Qed.

Lemma logged_operations_log_then_execute_witness :
  QueryRowWithLog (quietEnv []) (Some 0%nat) "SELECT 1" []
    (loneWorld (poolOf "t" (Some 0%nat) false)) =
    (Returns {| row_err := None; row_rows := Some 0%nat |},
     record (EvQueryRow 0%nat "SELECT 1")
       (record (EvLogger DefaultTenantLogger "SELECT 1" [])
          (loneWorld (poolOf "t" (Some 0%nat) false)))).
Proof.
  destruct (logged_operations_log_then_execute (quietEnv []) 0%nat
              (poolOf "t" (Some 0%nat) false) "SELECT 1" []
              (loneWorld (poolOf "t" (Some 0%nat) false)) eq_refl)
    as (_ & _ & Hrow).
  exact Hrow.
Defined.

(** X25: IsHealthy never changes the cache, the pools, the global lock
    or the handles.  It answers true only for an open pool with a handle
    whose liveness probe, made with the caller's context, just
    succeeded; every other answer is false (or, for a dangling pointer,
    the nil-dereference panic). *)
Theorem IsHealthy_is_read_only env tc w out w' :
  IsHealthy env tc w = (out, w') ->
  Connections w' = Connections w /\ heap w' = heap w /\
  mutexHeld w' = mutexHeld w /\ nextDB w' = nextDB w /\
  (out = Returns true ->
     exists p obj h, tc = Some p /\ heap w !! p = Some obj /\ closed obj = false /\
       DB obj = Some h /\ pingResult env (trace w) h CallerCtx = None /\
       trace w' = EvPing h CallerCtx :: trace w) /\
  (out ≠ Returns true -> out = Returns false \/ out = Panics nil_dereference).
Proof.
  unfold IsHealthy, load, PingContext. go_unfold. all_cases.
  all: intros; simplify_eq /=; repeat split; auto; try congruence.
  all: try (intros [=]; fail).
  - intros [= Hnil].
    destruct (pingResult env _ _ CallerCtx) eqn:Hping; [discriminate |].
    match goal with H : closed _ || false = false |- _ => rewrite orb_false_r in H end.
    eauto 10.
  - intros Hne.
    destruct (pingResult env _ _ CallerCtx); cbn in *; [left; reflexivity | congruence].
Qed.

Lemma IsHealthy_is_read_only_witness :
  Connections (snd (IsHealthy (staleEnv []) (Some 0%nat) builtWorld)) =
  Connections builtWorld /\
  heap (snd (IsHealthy (staleEnv []) (Some 0%nat) builtWorld)) = heap builtWorld.
Proof.
  destruct (IsHealthy_is_read_only (staleEnv []) (Some 0%nat) builtWorld
              (fst (IsHealthy (staleEnv []) (Some 0%nat) builtWorld))
              (snd (IsHealthy (staleEnv []) (Some 0%nat) builtWorld)))
    as (Hcache & Hheap & _).
  - apply run_is_pair.
  - split; [exact Hcache | exact Hheap].
Defined.

(** ** practical_dbutils_example.go: ExampleHandler *)

(** X26: when ExampleHandler starts with the lock free and nothing
    cached for the tenant, then whenever it returns (with or without an
    error) the cache is exactly as it was, the lock is free, no pool
    that existed before was modified, and every handle opened during the
    call has been closed: its deferred Close evicts and closes the pool
    it has just built. *)
Theorem ExampleHandler_leaves_nothing_behind env tenant customerId w r w' :
  mutexHeld w = false ->
  Connections w !! cacheKeyV2 tenant = None ->
  ExampleHandler env tenant customerId w = (Returns r, w') ->
  Connections w' = Connections w /\ mutexHeld w' = false /\
  (forall q obj, heap w !! q = Some obj -> heap w' !! q = Some obj) /\
  exists new, trace w' = new ++ trace w /\ leaked (rev new) = [].
Proof.
  intros Hfree Hmiss.
  unfold ExampleHandler, GetTenantConnectionUpdated, GetTenantConnectionV2. cbn [Tenant].
  destruct (String.eqb tenant "") eqn:Hname.
  - go_unfold. cbn. intros [= <- <-]. cbn. repeat split; auto.
    eexists [_]. split; reflexivity.
  - cbv zeta. unfold lookupCached. go_unfold. cbn.
    unfold Mutex_Lock. rewrite Hfree. unfold Connections_Get. cbn. rewrite Hmiss. cbn.
    run_build. run_close. unfold GetCustomerByID, QueryContext, with_defer. go_unfold.
    cbn.
    repeat (case_match; simplify_eq /=; rewrite ?lookup_insert_eq in *; simplify_eq /=);
      try congruence.
    all: intros; simplify_eq /=.
    all: split; [first [reflexivity | apply delete_insert_id; exact Hmiss] |].
    all: split; [first [reflexivity | assumption] |].
    all: split;
      [ intros q obj Hq; pose proof (fresh_not_allocated _ _ _ Hq);
        rewrite ?lookup_alter_ne, ?lookup_insert_ne by assumption; exact Hq |].
    all: give_prefix; split; [reflexivity |]; cbn; rewrite ?Nat.eqb_refl; reflexivity.
Qed.

Lemma ExampleHandler_leaves_nothing_behind_witness :
  Connections (snd (ExampleHandler (quietEnv [catalogRow "t"]) "t" "42" emptyWorld)) =
  Connections emptyWorld /\
  mutexHeld (snd (ExampleHandler (quietEnv [catalogRow "t"]) "t" "42" emptyWorld)) = false.
Proof.
  destruct (ExampleHandler_leaves_nothing_behind (quietEnv [catalogRow "t"]) "t" "42"
              emptyWorld None
              (snd (ExampleHandler (quietEnv [catalogRow "t"]) "t" "42" emptyWorld)))
    as (Hcache & Hfree & _).
  - reflexivity.
  - reflexivity.
  - vm_compute. reflexivity.
  - split; [exact Hcache | exact Hfree].
Defined.
